(** * glc/capture/audio_hook.c: the ALSA audio capture hook

    A shallow embedding of the capture hook of glc.  Every C function of
    [audio_hook.c] is a Rocq function of the same name.  The heap objects the
    C code mutates through pointers (the hook, its list of streams, the byte
    memory) are threaded through a state monad; a call that has to wait for
    another thread (a held lock, an empty semaphore, a busy wait) ends in
    [Blocked]. *)

From Stdlib Require Import ZArith List String Bool Lia.
Import ListNotations.
Local Open Scope string_scope.
Local Open Scope Z_scope.

(** ** Constants of the system headers *)

Module Errno.
Definition EAGAIN : Z := 11.
Definition ENOMEM : Z := 12.
Definition EBUSY : Z := 16.
Definition EINVAL : Z := 22.
Definition ENOTSUP : Z := 95.
Definition EALREADY : Z := 114.
End Errno.
Import Errno.

Module Alsa.
(* open mode bits *)
Definition SND_PCM_NONBLOCK : Z := 1.
Definition SND_PCM_ASYNC : Z := 2.
(* snd_pcm_format_t *)
Definition SND_PCM_FORMAT_S16_LE : Z := 2.
Definition SND_PCM_FORMAT_S24_LE : Z := 6.
Definition SND_PCM_FORMAT_S32_LE : Z := 10.
(* snd_pcm_access_t *)
Definition SND_PCM_ACCESS_MMAP_INTERLEAVED : Z := 0.
Definition SND_PCM_ACCESS_MMAP_NONINTERLEAVED : Z := 1.
Definition SND_PCM_ACCESS_MMAP_COMPLEX : Z := 2.
Definition SND_PCM_ACCESS_RW_INTERLEAVED : Z := 3.
End Alsa.
Import Alsa.

Definition NULL : Z := 0.

Definition AUDIO_HOOK_CAPTURING : Z := 1.
Definition AUDIO_HOOK_ALLOW_SKIP : Z := 2.

(** size_t, snd_pcm_uframes_t and pointers are 64 bits wide, unsigned int and
    glc_flags_t 32 bits. *)
Definition wrap64 (x : Z) : Z := x mod 2 ^ 64.
Definition wrap32 (x : Z) : Z := x mod 2 ^ 32.

(** ** What the hook takes from the rest of glc and from ALSA

    [glc/common/glc.h] is not part of the sources at hand: the audio format
    flags are taken as they come.  The two ALSA size conversions depend on the
    hardware configuration of the PCM handle, which lives inside ALSA. *)
Class glc_h := {
  GLC_AUDIO_INTERLEAVED : Z;
  GLC_AUDIO_FORMAT_UNKNOWN : Z;
  GLC_AUDIO_S16_LE : Z;
  GLC_AUDIO_S24_LE : Z;
  GLC_AUDIO_S32_LE : Z
}.

Class asoundlib := {
  snd_pcm_frames_to_bytes : Z -> Z -> Z;   (* pcm, frames *)
  snd_pcm_samples_to_bytes : Z -> Z -> Z   (* pcm, samples *)
}.

(** snd_pcm_hw_params_t: each getter yields a return code (negative on error)
    and the value it stores on success. *)
Record snd_pcm_hw_params_t := {
  hw_format : Z * Z;
  hw_rate : Z * Z;
  hw_channels : Z * Z;
  hw_period_size : Z * Z;
  hw_access : Z * Z
}.

Record snd_pcm_channel_area_t := {
  area_addr : Z;    (* base address *)
  area_first : Z;   (* offset to the first sample, in bits *)
  area_step : Z     (* distance between samples, in bits *)
}.

(** ** Data model *)

(** struct audio_hook_stream_s.  Semaphores are their counts, the two locks
    are 0 (free) or 1 (held), [mmap_areas] is [None] for a NULL pointer,
    [packet] is the transport the packet context is bound to.  The [next]
    link is the list the hook keeps; the pthread_t handle is left out, the
    creation of the worker is recorded in the trace. *)
Record audio_hook_stream_s := {
  state_audio : Z;
  audio_i : Z;
  pcm : Z;
  mode : Z;
  mmap_areas : option (list snd_pcm_channel_area_t);
  frames : Z;
  offset : Z;
  channels : Z;
  rate : Z;
  flags : Z;
  complex : Z;
  fmt : Z;
  initialized : Z;
  packet : Z;
  capture_finished : Z;
  capture_running : Z;
  capture_empty : Z;
  capture_full : Z;
  write_mutex : Z;
  write_spinlock : Z;
  capture_ready : Z;
  capture_data : Z;
  capture_size : Z;
  capture_data_size : Z;
  capture_time : Z
}.

(** struct audio_hook_s *)
Record audio_hook_s := {
  h_glc : Z;
  h_flags : Z;
  h_to : Z;
  h_started : Z;
  h_stream : list audio_hook_stream_s
}.

(** Messages written to the transport, one per open/close window. *)
Inductive glc_message :=
| GLC_MESSAGE_AUDIO_FORMAT (audio fl rt ch : Z)
| GLC_MESSAGE_AUDIO (audio timestamp size : Z) (payload : list Z).

Inductive glc_log_level := GLC_ERROR | GLC_WARNING | GLC_INFORMATION | GLC_DEBUG.

Inductive lock_kind := spinlock | mutex.

(** What a call does to the world outside the hook. *)
Inductive event :=
| ev_log (level : glc_log_level) (msg : string)
| ev_packet (buffer : Z) (m : glc_message)
| ev_packet_init (p buffer : Z)
| ev_packet_destroy (p : Z)
| ev_thread_create (p : Z)
| ev_lock (p : Z) (k : lock_kind)
| ev_unlock (p : Z) (k : lock_kind)
| ev_free_data (addr : Z)
| ev_free_stream (p : Z)
| ev_free_hook.

Definition memory := Z -> Z.

(** The process: the hook, the byte memory, the answers malloc and realloc
    are going to give (0 for a failed allocation, none left: out of memory),
    the stream counter of the glc state, the clock, and the trace of events,
    newest first. *)
Record state := {
  hook : audio_hook_s;
  mem : memory;
  allocs : list Z;
  audio_count : Z;
  clock : Z;
  trace : list event
}.

Definition set_state_audio (v : Z) (s : audio_hook_stream_s) : audio_hook_stream_s :=
  {| state_audio := v; audio_i := audio_i s; pcm := pcm s; mode := mode s;
     mmap_areas := mmap_areas s; frames := frames s; offset := offset s;
     channels := channels s; rate := rate s; flags := flags s; complex := complex s;
     fmt := fmt s; initialized := initialized s; packet := packet s;
     capture_finished := capture_finished s; capture_running := capture_running s;
     capture_empty := capture_empty s; capture_full := capture_full s;
     write_mutex := write_mutex s; write_spinlock := write_spinlock s;
     capture_ready := capture_ready s; capture_data := capture_data s;
     capture_size := capture_size s; capture_data_size := capture_data_size s;
     capture_time := capture_time s |}.
Definition set_audio_i (v : Z) (s : audio_hook_stream_s) : audio_hook_stream_s :=
  {| state_audio := state_audio s; audio_i := v; pcm := pcm s; mode := mode s;
     mmap_areas := mmap_areas s; frames := frames s; offset := offset s;
     channels := channels s; rate := rate s; flags := flags s; complex := complex s;
     fmt := fmt s; initialized := initialized s; packet := packet s;
     capture_finished := capture_finished s; capture_running := capture_running s;
     capture_empty := capture_empty s; capture_full := capture_full s;
     write_mutex := write_mutex s; write_spinlock := write_spinlock s;
     capture_ready := capture_ready s; capture_data := capture_data s;
     capture_size := capture_size s; capture_data_size := capture_data_size s;
     capture_time := capture_time s |}.
Definition set_mode (v : Z) (s : audio_hook_stream_s) : audio_hook_stream_s :=
  {| state_audio := state_audio s; audio_i := audio_i s; pcm := pcm s; mode := v;
     mmap_areas := mmap_areas s; frames := frames s; offset := offset s;
     channels := channels s; rate := rate s; flags := flags s; complex := complex s;
     fmt := fmt s; initialized := initialized s; packet := packet s;
     capture_finished := capture_finished s; capture_running := capture_running s;
     capture_empty := capture_empty s; capture_full := capture_full s;
     write_mutex := write_mutex s; write_spinlock := write_spinlock s;
     capture_ready := capture_ready s; capture_data := capture_data s;
     capture_size := capture_size s; capture_data_size := capture_data_size s;
     capture_time := capture_time s |}.
Definition set_mmap_areas (v : option (list snd_pcm_channel_area_t)) (s : audio_hook_stream_s) : audio_hook_stream_s :=
  {| state_audio := state_audio s; audio_i := audio_i s; pcm := pcm s; mode := mode s;
     mmap_areas := v; frames := frames s; offset := offset s; channels := channels s;
     rate := rate s; flags := flags s; complex := complex s; fmt := fmt s;
     initialized := initialized s; packet := packet s; capture_finished := capture_finished s;
     capture_running := capture_running s; capture_empty := capture_empty s;
     capture_full := capture_full s; write_mutex := write_mutex s;
     write_spinlock := write_spinlock s; capture_ready := capture_ready s;
     capture_data := capture_data s; capture_size := capture_size s;
     capture_data_size := capture_data_size s; capture_time := capture_time s |}.
Definition set_frames (v : Z) (s : audio_hook_stream_s) : audio_hook_stream_s :=
  {| state_audio := state_audio s; audio_i := audio_i s; pcm := pcm s; mode := mode s;
     mmap_areas := mmap_areas s; frames := v; offset := offset s; channels := channels s;
     rate := rate s; flags := flags s; complex := complex s; fmt := fmt s;
     initialized := initialized s; packet := packet s; capture_finished := capture_finished s;
     capture_running := capture_running s; capture_empty := capture_empty s;
     capture_full := capture_full s; write_mutex := write_mutex s;
     write_spinlock := write_spinlock s; capture_ready := capture_ready s;
     capture_data := capture_data s; capture_size := capture_size s;
     capture_data_size := capture_data_size s; capture_time := capture_time s |}.
Definition set_offset (v : Z) (s : audio_hook_stream_s) : audio_hook_stream_s :=
  {| state_audio := state_audio s; audio_i := audio_i s; pcm := pcm s; mode := mode s;
     mmap_areas := mmap_areas s; frames := frames s; offset := v; channels := channels s;
     rate := rate s; flags := flags s; complex := complex s; fmt := fmt s;
     initialized := initialized s; packet := packet s; capture_finished := capture_finished s;
     capture_running := capture_running s; capture_empty := capture_empty s;
     capture_full := capture_full s; write_mutex := write_mutex s;
     write_spinlock := write_spinlock s; capture_ready := capture_ready s;
     capture_data := capture_data s; capture_size := capture_size s;
     capture_data_size := capture_data_size s; capture_time := capture_time s |}.
Definition set_channels (v : Z) (s : audio_hook_stream_s) : audio_hook_stream_s :=
  {| state_audio := state_audio s; audio_i := audio_i s; pcm := pcm s; mode := mode s;
     mmap_areas := mmap_areas s; frames := frames s; offset := offset s; channels := v;
     rate := rate s; flags := flags s; complex := complex s; fmt := fmt s;
     initialized := initialized s; packet := packet s; capture_finished := capture_finished s;
     capture_running := capture_running s; capture_empty := capture_empty s;
     capture_full := capture_full s; write_mutex := write_mutex s;
     write_spinlock := write_spinlock s; capture_ready := capture_ready s;
     capture_data := capture_data s; capture_size := capture_size s;
     capture_data_size := capture_data_size s; capture_time := capture_time s |}.
Definition set_rate (v : Z) (s : audio_hook_stream_s) : audio_hook_stream_s :=
  {| state_audio := state_audio s; audio_i := audio_i s; pcm := pcm s; mode := mode s;
     mmap_areas := mmap_areas s; frames := frames s; offset := offset s;
     channels := channels s; rate := v; flags := flags s; complex := complex s; fmt := fmt s;
     initialized := initialized s; packet := packet s; capture_finished := capture_finished s;
     capture_running := capture_running s; capture_empty := capture_empty s;
     capture_full := capture_full s; write_mutex := write_mutex s;
     write_spinlock := write_spinlock s; capture_ready := capture_ready s;
     capture_data := capture_data s; capture_size := capture_size s;
     capture_data_size := capture_data_size s; capture_time := capture_time s |}.
Definition set_flags (v : Z) (s : audio_hook_stream_s) : audio_hook_stream_s :=
  {| state_audio := state_audio s; audio_i := audio_i s; pcm := pcm s; mode := mode s;
     mmap_areas := mmap_areas s; frames := frames s; offset := offset s;
     channels := channels s; rate := rate s; flags := v; complex := complex s; fmt := fmt s;
     initialized := initialized s; packet := packet s; capture_finished := capture_finished s;
     capture_running := capture_running s; capture_empty := capture_empty s;
     capture_full := capture_full s; write_mutex := write_mutex s;
     write_spinlock := write_spinlock s; capture_ready := capture_ready s;
     capture_data := capture_data s; capture_size := capture_size s;
     capture_data_size := capture_data_size s; capture_time := capture_time s |}.
Definition set_complex (v : Z) (s : audio_hook_stream_s) : audio_hook_stream_s :=
  {| state_audio := state_audio s; audio_i := audio_i s; pcm := pcm s; mode := mode s;
     mmap_areas := mmap_areas s; frames := frames s; offset := offset s;
     channels := channels s; rate := rate s; flags := flags s; complex := v; fmt := fmt s;
     initialized := initialized s; packet := packet s; capture_finished := capture_finished s;
     capture_running := capture_running s; capture_empty := capture_empty s;
     capture_full := capture_full s; write_mutex := write_mutex s;
     write_spinlock := write_spinlock s; capture_ready := capture_ready s;
     capture_data := capture_data s; capture_size := capture_size s;
     capture_data_size := capture_data_size s; capture_time := capture_time s |}.
Definition set_fmt (v : Z) (s : audio_hook_stream_s) : audio_hook_stream_s :=
  {| state_audio := state_audio s; audio_i := audio_i s; pcm := pcm s; mode := mode s;
     mmap_areas := mmap_areas s; frames := frames s; offset := offset s;
     channels := channels s; rate := rate s; flags := flags s; complex := complex s; fmt := v;
     initialized := initialized s; packet := packet s; capture_finished := capture_finished s;
     capture_running := capture_running s; capture_empty := capture_empty s;
     capture_full := capture_full s; write_mutex := write_mutex s;
     write_spinlock := write_spinlock s; capture_ready := capture_ready s;
     capture_data := capture_data s; capture_size := capture_size s;
     capture_data_size := capture_data_size s; capture_time := capture_time s |}.
Definition set_initialized (v : Z) (s : audio_hook_stream_s) : audio_hook_stream_s :=
  {| state_audio := state_audio s; audio_i := audio_i s; pcm := pcm s; mode := mode s;
     mmap_areas := mmap_areas s; frames := frames s; offset := offset s;
     channels := channels s; rate := rate s; flags := flags s; complex := complex s;
     fmt := fmt s; initialized := v; packet := packet s;
     capture_finished := capture_finished s; capture_running := capture_running s;
     capture_empty := capture_empty s; capture_full := capture_full s;
     write_mutex := write_mutex s; write_spinlock := write_spinlock s;
     capture_ready := capture_ready s; capture_data := capture_data s;
     capture_size := capture_size s; capture_data_size := capture_data_size s;
     capture_time := capture_time s |}.
Definition set_packet (v : Z) (s : audio_hook_stream_s) : audio_hook_stream_s :=
  {| state_audio := state_audio s; audio_i := audio_i s; pcm := pcm s; mode := mode s;
     mmap_areas := mmap_areas s; frames := frames s; offset := offset s;
     channels := channels s; rate := rate s; flags := flags s; complex := complex s;
     fmt := fmt s; initialized := initialized s; packet := v;
     capture_finished := capture_finished s; capture_running := capture_running s;
     capture_empty := capture_empty s; capture_full := capture_full s;
     write_mutex := write_mutex s; write_spinlock := write_spinlock s;
     capture_ready := capture_ready s; capture_data := capture_data s;
     capture_size := capture_size s; capture_data_size := capture_data_size s;
     capture_time := capture_time s |}.
Definition set_capture_finished (v : Z) (s : audio_hook_stream_s) : audio_hook_stream_s :=
  {| state_audio := state_audio s; audio_i := audio_i s; pcm := pcm s; mode := mode s;
     mmap_areas := mmap_areas s; frames := frames s; offset := offset s;
     channels := channels s; rate := rate s; flags := flags s; complex := complex s;
     fmt := fmt s; initialized := initialized s; packet := packet s; capture_finished := v;
     capture_running := capture_running s; capture_empty := capture_empty s;
     capture_full := capture_full s; write_mutex := write_mutex s;
     write_spinlock := write_spinlock s; capture_ready := capture_ready s;
     capture_data := capture_data s; capture_size := capture_size s;
     capture_data_size := capture_data_size s; capture_time := capture_time s |}.
Definition set_capture_running (v : Z) (s : audio_hook_stream_s) : audio_hook_stream_s :=
  {| state_audio := state_audio s; audio_i := audio_i s; pcm := pcm s; mode := mode s;
     mmap_areas := mmap_areas s; frames := frames s; offset := offset s;
     channels := channels s; rate := rate s; flags := flags s; complex := complex s;
     fmt := fmt s; initialized := initialized s; packet := packet s;
     capture_finished := capture_finished s; capture_running := v;
     capture_empty := capture_empty s; capture_full := capture_full s;
     write_mutex := write_mutex s; write_spinlock := write_spinlock s;
     capture_ready := capture_ready s; capture_data := capture_data s;
     capture_size := capture_size s; capture_data_size := capture_data_size s;
     capture_time := capture_time s |}.
Definition set_capture_empty (v : Z) (s : audio_hook_stream_s) : audio_hook_stream_s :=
  {| state_audio := state_audio s; audio_i := audio_i s; pcm := pcm s; mode := mode s;
     mmap_areas := mmap_areas s; frames := frames s; offset := offset s;
     channels := channels s; rate := rate s; flags := flags s; complex := complex s;
     fmt := fmt s; initialized := initialized s; packet := packet s;
     capture_finished := capture_finished s; capture_running := capture_running s;
     capture_empty := v; capture_full := capture_full s; write_mutex := write_mutex s;
     write_spinlock := write_spinlock s; capture_ready := capture_ready s;
     capture_data := capture_data s; capture_size := capture_size s;
     capture_data_size := capture_data_size s; capture_time := capture_time s |}.
Definition set_capture_full (v : Z) (s : audio_hook_stream_s) : audio_hook_stream_s :=
  {| state_audio := state_audio s; audio_i := audio_i s; pcm := pcm s; mode := mode s;
     mmap_areas := mmap_areas s; frames := frames s; offset := offset s;
     channels := channels s; rate := rate s; flags := flags s; complex := complex s;
     fmt := fmt s; initialized := initialized s; packet := packet s;
     capture_finished := capture_finished s; capture_running := capture_running s;
     capture_empty := capture_empty s; capture_full := v; write_mutex := write_mutex s;
     write_spinlock := write_spinlock s; capture_ready := capture_ready s;
     capture_data := capture_data s; capture_size := capture_size s;
     capture_data_size := capture_data_size s; capture_time := capture_time s |}.
Definition set_write_mutex (v : Z) (s : audio_hook_stream_s) : audio_hook_stream_s :=
  {| state_audio := state_audio s; audio_i := audio_i s; pcm := pcm s; mode := mode s;
     mmap_areas := mmap_areas s; frames := frames s; offset := offset s;
     channels := channels s; rate := rate s; flags := flags s; complex := complex s;
     fmt := fmt s; initialized := initialized s; packet := packet s;
     capture_finished := capture_finished s; capture_running := capture_running s;
     capture_empty := capture_empty s; capture_full := capture_full s; write_mutex := v;
     write_spinlock := write_spinlock s; capture_ready := capture_ready s;
     capture_data := capture_data s; capture_size := capture_size s;
     capture_data_size := capture_data_size s; capture_time := capture_time s |}.
Definition set_write_spinlock (v : Z) (s : audio_hook_stream_s) : audio_hook_stream_s :=
  {| state_audio := state_audio s; audio_i := audio_i s; pcm := pcm s; mode := mode s;
     mmap_areas := mmap_areas s; frames := frames s; offset := offset s;
     channels := channels s; rate := rate s; flags := flags s; complex := complex s;
     fmt := fmt s; initialized := initialized s; packet := packet s;
     capture_finished := capture_finished s; capture_running := capture_running s;
     capture_empty := capture_empty s; capture_full := capture_full s;
     write_mutex := write_mutex s; write_spinlock := v; capture_ready := capture_ready s;
     capture_data := capture_data s; capture_size := capture_size s;
     capture_data_size := capture_data_size s; capture_time := capture_time s |}.
Definition set_capture_ready (v : Z) (s : audio_hook_stream_s) : audio_hook_stream_s :=
  {| state_audio := state_audio s; audio_i := audio_i s; pcm := pcm s; mode := mode s;
     mmap_areas := mmap_areas s; frames := frames s; offset := offset s;
     channels := channels s; rate := rate s; flags := flags s; complex := complex s;
     fmt := fmt s; initialized := initialized s; packet := packet s;
     capture_finished := capture_finished s; capture_running := capture_running s;
     capture_empty := capture_empty s; capture_full := capture_full s;
     write_mutex := write_mutex s; write_spinlock := write_spinlock s; capture_ready := v;
     capture_data := capture_data s; capture_size := capture_size s;
     capture_data_size := capture_data_size s; capture_time := capture_time s |}.
Definition set_capture_data (v : Z) (s : audio_hook_stream_s) : audio_hook_stream_s :=
  {| state_audio := state_audio s; audio_i := audio_i s; pcm := pcm s; mode := mode s;
     mmap_areas := mmap_areas s; frames := frames s; offset := offset s;
     channels := channels s; rate := rate s; flags := flags s; complex := complex s;
     fmt := fmt s; initialized := initialized s; packet := packet s;
     capture_finished := capture_finished s; capture_running := capture_running s;
     capture_empty := capture_empty s; capture_full := capture_full s;
     write_mutex := write_mutex s; write_spinlock := write_spinlock s;
     capture_ready := capture_ready s; capture_data := v; capture_size := capture_size s;
     capture_data_size := capture_data_size s; capture_time := capture_time s |}.
Definition set_capture_size (v : Z) (s : audio_hook_stream_s) : audio_hook_stream_s :=
  {| state_audio := state_audio s; audio_i := audio_i s; pcm := pcm s; mode := mode s;
     mmap_areas := mmap_areas s; frames := frames s; offset := offset s;
     channels := channels s; rate := rate s; flags := flags s; complex := complex s;
     fmt := fmt s; initialized := initialized s; packet := packet s;
     capture_finished := capture_finished s; capture_running := capture_running s;
     capture_empty := capture_empty s; capture_full := capture_full s;
     write_mutex := write_mutex s; write_spinlock := write_spinlock s;
     capture_ready := capture_ready s; capture_data := capture_data s; capture_size := v;
     capture_data_size := capture_data_size s; capture_time := capture_time s |}.
Definition set_capture_data_size (v : Z) (s : audio_hook_stream_s) : audio_hook_stream_s :=
  {| state_audio := state_audio s; audio_i := audio_i s; pcm := pcm s; mode := mode s;
     mmap_areas := mmap_areas s; frames := frames s; offset := offset s;
     channels := channels s; rate := rate s; flags := flags s; complex := complex s;
     fmt := fmt s; initialized := initialized s; packet := packet s;
     capture_finished := capture_finished s; capture_running := capture_running s;
     capture_empty := capture_empty s; capture_full := capture_full s;
     write_mutex := write_mutex s; write_spinlock := write_spinlock s;
     capture_ready := capture_ready s; capture_data := capture_data s;
     capture_size := capture_size s; capture_data_size := v;
     capture_time := capture_time s |}.
Definition set_capture_time (v : Z) (s : audio_hook_stream_s) : audio_hook_stream_s :=
  {| state_audio := state_audio s; audio_i := audio_i s; pcm := pcm s; mode := mode s;
     mmap_areas := mmap_areas s; frames := frames s; offset := offset s;
     channels := channels s; rate := rate s; flags := flags s; complex := complex s;
     fmt := fmt s; initialized := initialized s; packet := packet s;
     capture_finished := capture_finished s; capture_running := capture_running s;
     capture_empty := capture_empty s; capture_full := capture_full s;
     write_mutex := write_mutex s; write_spinlock := write_spinlock s;
     capture_ready := capture_ready s; capture_data := capture_data s;
     capture_size := capture_size s; capture_data_size := capture_data_size s;
     capture_time := v |}.

Definition set_h_flags (v : Z) (h : audio_hook_s) : audio_hook_s :=
  {| h_glc := h_glc h; h_flags := v; h_to := h_to h; h_started := h_started h;
     h_stream := h_stream h |}.
Definition set_h_to (v : Z) (h : audio_hook_s) : audio_hook_s :=
  {| h_glc := h_glc h; h_flags := h_flags h; h_to := v; h_started := h_started h;
     h_stream := h_stream h |}.
Definition set_h_started (v : Z) (h : audio_hook_s) : audio_hook_s :=
  {| h_glc := h_glc h; h_flags := h_flags h; h_to := h_to h; h_started := v;
     h_stream := h_stream h |}.
Definition set_h_stream (v : list audio_hook_stream_s) (h : audio_hook_s) : audio_hook_s :=
  {| h_glc := h_glc h; h_flags := h_flags h; h_to := h_to h; h_started := h_started h;
     h_stream := v |}.

Definition set_hook (v : audio_hook_s) (st : state) : state :=
  {| hook := v; mem := mem st; allocs := allocs st; audio_count := audio_count st;
     clock := clock st; trace := trace st |}.
Definition set_mem (v : memory) (st : state) : state :=
  {| hook := hook st; mem := v; allocs := allocs st; audio_count := audio_count st;
     clock := clock st; trace := trace st |}.
Definition set_allocs (v : list Z) (st : state) : state :=
  {| hook := hook st; mem := mem st; allocs := v; audio_count := audio_count st;
     clock := clock st; trace := trace st |}.
Definition set_audio_count (v : Z) (st : state) : state :=
  {| hook := hook st; mem := mem st; allocs := allocs st; audio_count := v; clock := clock st;
     trace := trace st |}.
Definition set_trace (v : list event) (st : state) : state :=
  {| hook := hook st; mem := mem st; allocs := allocs st; audio_count := audio_count st;
     clock := clock st; trace := v |}.

(** ** The monad of a call *)

Inductive outcome (S A : Type) : Type :=
| Ret (a : A) (s : S)
| Blocked (s : S).
Arguments Ret {S A} a s.
Arguments Blocked {S A} s.

Definition M (S A : Type) : Type := S -> outcome S A.

Definition ret {S A} (a : A) : M S A := fun s => Ret a s.

Definition bind {S A B} (m : M S A) (k : A -> M S B) : M S B :=
  fun s => match m s with
           | Ret a s' => k a s'
           | Blocked s' => Blocked s'
           end.

Definition block {S A} : M S A := fun s => Blocked s.

Declare Scope hook_scope.
Delimit Scope hook_scope with hook.
Notation "x <- m ;; k" := (bind m (fun x => k))
  (at level 61, m at next level, right associativity) : hook_scope.
Notation "m ;; k" := (bind m (fun _ => k))
  (at level 61, right associativity) : hook_scope.
Local Open Scope hook_scope.

(** Inside a call the local pointer [stream] designates one stream; the code
    below runs on that stream together with the process. *)
Definition focus : Type := audio_hook_stream_s * state.

Definition stream_get : M focus audio_hook_stream_s := fun f => Ret (fst f) f.
Definition stream_set (g : audio_hook_stream_s -> audio_hook_stream_s) : M focus unit :=
  fun f => Ret tt (g (fst f), snd f).

(** Both levels reach the process. *)
Class process (S : Type) := {
  get_state : S -> state;
  map_state : (state -> state) -> S -> S
}.
#[export] Instance process_state : process state :=
  {| get_state := fun st => st; map_state := fun g st => g st |}.
#[export] Instance process_focus : process focus :=
  {| get_state := snd; map_state := fun g f => (fst f, g (snd f)) |}.

Definition state_get {S} `{process S} : M S state := fun s => Ret (get_state s) s.
Definition state_set {S} `{process S} (g : state -> state) : M S unit :=
  fun s => Ret tt (map_state g s).

Definition emit {S} `{process S} (e : event) : M S unit :=
  state_set (fun st => set_trace (e :: trace st) st).
Definition glc_log {S} `{process S} (level : glc_log_level) (msg : string) : M S unit :=
  emit (ev_log level msg).

Definition stream_zero : audio_hook_stream_s :=
  {| state_audio := 0; audio_i := 0; pcm := 0; mode := 0; mmap_areas := None;
     frames := 0; offset := 0; channels := 0; rate := 0; flags := 0; complex := 0;
     fmt := 0; initialized := 0; packet := 0; capture_finished := 0;
     capture_running := 0; capture_empty := 0; capture_full := 0; write_mutex := 0;
     write_spinlock := 0; capture_ready := 0; capture_data := 0; capture_size := 0;
     capture_data_size := 0; capture_time := 0 |}.

Definition stream_at (i : nat) (h : audio_hook_s) : audio_hook_stream_s :=
  nth i (h_stream h) stream_zero.

Fixpoint list_put {A} (i : nat) (x : A) (l : list A) : list A :=
  match l, i with
  | [], _ => []
  | _ :: l', O => x :: l'
  | y :: l', S i' => y :: list_put i' x l'
  end.

Definition put_stream (i : nat) (s : audio_hook_stream_s) (st : state) : state :=
  set_hook (set_h_stream (list_put i s (h_stream (hook st))) (hook st)) st.

(** Run [m] on the stream at position [i] of the list and store the stream
    back. *)
Definition on_stream {A} (i : nat) (m : M focus A) : M state A :=
  fun st => match m (stream_at i (hook st), st) with
            | Ret a (s, st') => Ret a (put_stream i s st')
            | Blocked (s, st') => Blocked (put_stream i s st')
            end.

Definition on_detached {A} (del : audio_hook_stream_s) (m : M focus A) : M state A :=
  fun st => match m (del, st) with
            | Ret a (_, st') => Ret a st'
            | Blocked (_, st') => Blocked st'
            end.

(** ** libc, pthread and the glc state *)

Definition memcpy (dst src n : Z) (m : memory) : memory :=
  fun a => if (dst <=? a) && (a <? dst + n) then m (src + (a - dst)) else m a.

Definition load (m : memory) (addr n : Z) : list Z :=
  map (fun k => m (addr + Z.of_nat k)) (seq 0 (Z.to_nat n)).

Definition malloc {S} `{process S} (size : Z) : M S Z :=
  st <- state_get ;;
  match allocs st with
  | [] => ret NULL
  | a :: rest => state_set (set_allocs rest) ;; ret a
  end.

(** [old] is the size of the block at [ptr], which the allocator knows. *)
Definition realloc {S} `{process S} (ptr old size : Z) : M S Z :=
  a <- malloc size ;;
  if a =? NULL then ret NULL
  else state_set (fun st => set_mem (memcpy a ptr (Z.min old size) (mem st)) st) ;; ret a.

Definition sem_post (count : audio_hook_stream_s -> Z)
    (set : Z -> audio_hook_stream_s -> audio_hook_stream_s) : M focus unit :=
  stream_set (fun s => set (count s + 1) s).

Definition sem_wait (count : audio_hook_stream_s -> Z)
    (set : Z -> audio_hook_stream_s -> audio_hook_stream_s) : M focus unit :=
  stream <- stream_get ;;
  if 0 <? count stream then stream_set (fun s => set (count s - 1) s) else block.

Definition pthread_spin_lock : M focus Z :=
  stream <- stream_get ;;
  if write_spinlock stream =? 0
  then stream_set (set_write_spinlock 1) ;; emit (ev_lock (pcm stream) spinlock) ;; ret 0
  else block.

Definition pthread_mutex_lock : M focus Z :=
  stream <- stream_get ;;
  if write_mutex stream =? 0
  then stream_set (set_write_mutex 1) ;; emit (ev_lock (pcm stream) mutex) ;; ret 0
  else block.

Definition pthread_spin_unlock : M focus Z :=
  stream <- stream_get ;;
  stream_set (set_write_spinlock 0) ;; emit (ev_unlock (pcm stream) spinlock) ;; ret 0.

Definition pthread_mutex_unlock : M focus Z :=
  stream <- stream_get ;;
  stream_set (set_write_mutex 0) ;; emit (ev_unlock (pcm stream) mutex) ;; ret 0.

Definition glc_state_time {S} `{process S} : M S Z :=
  st <- state_get ;; ret (clock st).

(** Modelled from the spec: glc_state_audio_new of glc/common/state.c, which
    is not among the sources.  The spec has the stream identifier
    "monotonically assigned" from the global state registry "together with
    state_token", the first stream of a process getting 1: the registry's
    counter is advanced and its new value is the identifier. *)
Definition glc_state_audio_new : M focus unit :=
  st <- state_get ;;
  state_set (set_audio_count (audio_count st + 1)) ;;
  stream_set (set_audio_i (audio_count st + 1)) ;;
  stream_set (set_state_audio (audio_count st + 1)).

Definition ps_packet_init (buffer : Z) : M focus unit :=
  stream <- stream_get ;;
  stream_set (set_packet buffer) ;; emit (ev_packet_init (pcm stream) buffer).

Definition ps_packet_destroy : M focus unit :=
  stream <- stream_get ;;
  emit (ev_packet_destroy (pcm stream)).

(** ps_packet_open, the ps_packet_write calls and ps_packet_close of one
    message. *)
Definition ps_packet_message (m : glc_message) : M focus unit :=
  stream <- stream_get ;;
  emit (ev_packet (packet stream) m).

(** ** The functions of audio_hook.c *)

Section AudioHook.
Context {glc : glc_h} {alsa : asoundlib}.

(** The allocation of the hook and of a stream record is taken to succeed:
    the code does not test it. *)
Definition audio_hook_init (glc_ptr : Z) : M state Z :=
  state_set (set_hook {| h_glc := glc_ptr; h_flags := 0; h_to := NULL;
                         h_started := 0; h_stream := [] |}) ;;
  ret 0.

Definition audio_hook_set_buffer (buffer : Z) : M state Z :=
  st <- state_get ;;
  if negb (h_to (hook st) =? NULL) then ret EALREADY
  else state_set (set_hook (set_h_to buffer (hook st))) ;; ret 0.

Definition audio_hook_allow_skip (allow_skip : Z) : M state Z :=
  st <- state_get ;;
  (if negb (allow_skip =? 0)
   then state_set (set_hook (set_h_flags
          (Z.lor (h_flags (hook st)) AUDIO_HOOK_ALLOW_SKIP) (hook st)))
   else state_set (set_hook (set_h_flags
          (Z.land (h_flags (hook st)) (wrap32 (Z.lnot AUDIO_HOOK_ALLOW_SKIP))) (hook st)))) ;;
  ret 0.

Definition pcm_fmt_to_glc_fmt (pcm_fmt : Z) : Z :=
  if pcm_fmt =? SND_PCM_FORMAT_S16_LE then GLC_AUDIO_S16_LE
  else if pcm_fmt =? SND_PCM_FORMAT_S24_LE then GLC_AUDIO_S24_LE
  else if pcm_fmt =? SND_PCM_FORMAT_S32_LE then GLC_AUDIO_S32_LE
  else GLC_AUDIO_FORMAT_UNKNOWN.

Fixpoint stream_find (p : Z) (l : list audio_hook_stream_s) : option nat :=
  match l with
  | [] => None
  | find :: next => if pcm find =? p then Some O else option_map S (stream_find p next)
  end.

(** A stream as audio_hook_get_stream_alsa sets it up: zeroed, the
    semaphores at 0, 0 and 1, the locks free. *)
Definition stream_new (p : Z) : audio_hook_stream_s :=
  {| state_audio := 0; audio_i := 0; pcm := p; mode := 0; mmap_areas := None;
     frames := 0; offset := 0; channels := 0; rate := 0; flags := 0; complex := 0;
     fmt := 0; initialized := 0; packet := 0; capture_finished := 0;
     capture_running := 0; capture_empty := 1; capture_full := 0; write_mutex := 0;
     write_spinlock := 0; capture_ready := 0; capture_data := NULL; capture_size := 0;
     capture_data_size := 0; capture_time := 0 |}.

(** The result is the position of the stream in the list of the hook, which
    stands for the pointer stored in [*stream]. *)
Definition audio_hook_get_stream_alsa (p : Z) : M state nat :=
  st <- state_get ;;
  match stream_find p (h_stream (hook st)) with
  | Some i => ret i
  | None =>
      state_set (set_hook (set_h_stream (stream_new p :: h_stream (hook st)) (hook st))) ;;
      ret O
  end.

Definition async (stream : audio_hook_stream_s) : bool :=
  negb (Z.land (mode stream) SND_PCM_ASYNC =? 0).

Definition audio_hook_lock_write : M focus Z :=
  stream <- stream_get ;;
  if async stream then pthread_spin_lock else pthread_mutex_lock.

Definition audio_hook_unlock_write : M focus Z :=
  stream <- stream_get ;;
  if async stream then pthread_spin_unlock else pthread_mutex_unlock.

(** In ASYNC mode the loop on [capture_ready] either leaves at once, or
    gives up (allow-skip), or yields until the worker sets the flag. *)
Definition audio_hook_wait_for_thread : M focus Z :=
  stream <- stream_get ;;
  st <- state_get ;;
  if async stream then
    if capture_ready stream =? 0 then
      if negb (Z.land (h_flags (hook st)) AUDIO_HOOK_ALLOW_SKIP =? 0) then
        glc_log GLC_WARNING "dropped audio data, capture thread not ready" ;;
        ret EBUSY
      else block
    else ret 0
  else sem_wait capture_empty set_capture_empty ;; ret 0.

Definition audio_hook_set_data_size (size : Z) : M focus Z :=
  old <- stream_get ;;
  stream_set (set_capture_size size) ;;
  if size <=? capture_data_size old then ret 0 else
  stream_set (set_capture_data_size size) ;;
  data <- (if negb (capture_data old =? NULL)
           then realloc (capture_data old) (capture_data_size old) size
           else malloc size) ;;
  stream_set (set_capture_data data) ;;
  if data =? NULL then ret ENOMEM else ret 0.

(** The worker thread: its first statement, and one turn of its loop, which
    yields [false] when the loop is left. *)
Definition audio_hook_thread_entry : M focus unit :=
  stream_set (set_capture_ready 1).

Definition audio_hook_thread_turn : M focus bool :=
  sem_wait capture_full set_capture_full ;;
  stream_set (set_capture_ready 0) ;;
  stream <- stream_get ;;
  if capture_running stream =? 0 then
    sem_post capture_finished set_capture_finished ;; ret false
  else
    st <- state_get ;;
    ps_packet_message
      (GLC_MESSAGE_AUDIO (audio_i stream) (capture_time stream) (capture_size stream)
         (load (mem st) (capture_data stream) (capture_size stream))) ;;
    (if negb (async stream) then sem_post capture_empty set_capture_empty else ret tt) ;;
    stream_set (set_capture_ready 1) ;;
    ret true.

Definition audio_hook_stream_init : M focus Z :=
  stream <- stream_get ;;
  st <- state_get ;;
  if fmt stream =? 0 then ret EINVAL else
  (if audio_i stream <? 1 then glc_state_audio_new else ret tt) ;;
  glc_log GLC_INFORMATION "%p: initializing stream %d" ;;
  (if negb (initialized stream =? 0) then ps_packet_destroy else ret tt) ;;
  ps_packet_init (h_to (hook st)) ;;
  stream <- stream_get ;;
  ps_packet_message (GLC_MESSAGE_AUDIO_FORMAT (audio_i stream) (flags stream)
                       (rate stream) (channels stream)) ;;
  (if negb (capture_running stream =? 0) then
     stream_set (set_capture_running 0) ;;
     sem_post capture_full set_capture_full ;;
     sem_wait capture_finished set_capture_finished
   else ret tt) ;;
  stream_set (set_capture_running 1) ;;
  emit (ev_thread_create (pcm stream)) ;;
  stream_set (set_initialized 1) ;;
  ret 0.

Definition init_pending (i : nat) : M state unit :=
  on_stream i
    (stream <- stream_get ;;
     if negb (fmt stream =? 0) && (initialized stream =? 0)
     then audio_hook_stream_init ;; ret tt
     else ret tt).

Fixpoint for_each (l : list nat) (body : nat -> M state unit) : M state unit :=
  match l with
  | [] => ret tt
  | i :: l' => body i ;; for_each l' body
  end.

Definition audio_hook_init_streams : M state Z :=
  st <- state_get ;;
  if h_to (hook st) =? NULL then ret EAGAIN else
  if negb (h_started (hook st) =? 0) then ret EALREADY else
  for_each (seq 0 (List.length (h_stream (hook st)))) init_pending ;;
  st <- state_get ;;
  state_set (set_hook (set_h_started 1 (hook st))) ;;
  ret 0.

Definition capturing (st : state) : bool :=
  negb (Z.land (h_flags (hook st)) AUDIO_HOOK_CAPTURING =? 0).

Definition audio_hook_start : M state Z :=
  st <- state_get ;;
  if h_to (hook st) =? NULL then
    glc_log GLC_ERROR "target buffer not specified" ;; ret EAGAIN
  else
    (if h_started (hook st) =? 0 then audio_hook_init_streams else ret 0) ;;
    st <- state_get ;;
    (if capturing st
     then glc_log GLC_WARNING "capturing is already active"
     else glc_log GLC_INFORMATION "starting capturing") ;;
    state_set (set_hook (set_h_flags
      (Z.lor (h_flags (hook st)) AUDIO_HOOK_CAPTURING) (hook st))) ;;
    ret 0.

Definition audio_hook_stop : M state Z :=
  st <- state_get ;;
  (if capturing st
   then glc_log GLC_INFORMATION "stopping capturing"
   else glc_log GLC_WARNING "capturing is already stopped") ;;
  state_set (set_hook (set_h_flags
    (Z.land (h_flags (hook st)) (wrap32 (Z.lnot AUDIO_HOOK_CAPTURING))) (hook st))) ;;
  ret 0.

(** The body of the loop of audio_hook_destroy for one unlinked stream. *)
Definition destroy_stream : M focus unit :=
  del <- stream_get ;;
  (if negb (capture_running del =? 0) then
     stream_set (set_capture_running 0) ;;
     sem_post capture_full set_capture_full ;;
     sem_wait capture_finished set_capture_finished
   else ret tt) ;;
  (if negb (capture_data del =? NULL) then emit (ev_free_data (capture_data del))
   else ret tt) ;;
  (if negb (initialized del =? 0) then ps_packet_destroy else ret tt) ;;
  emit (ev_free_stream (pcm del)).

Fixpoint destroy_streams (l : list audio_hook_stream_s) : M state unit :=
  match l with
  | [] => ret tt
  | del :: next =>
      st <- state_get ;;
      state_set (set_hook (set_h_stream next (hook st))) ;;
      on_detached del destroy_stream ;;
      destroy_streams next
  end.

(** [audio_hook] is the pointer handed in: NULL, or else the hook of the
    process. *)
Definition audio_hook_destroy (audio_hook : Z) : M state Z :=
  if audio_hook =? NULL then ret EINVAL else
  st <- state_get ;;
  destroy_streams (h_stream (hook st)) ;;
  emit ev_free_hook ;;
  ret 0.

(** *** MMap addressing and the copies into the scratch buffer *)

Definition do_memcpy (dst src n : Z) : M focus unit :=
  state_set (fun st => set_mem (memcpy dst src n (mem st)) st).

Definition audio_hook_alsa_mmap_pos (area : snd_pcm_channel_area_t) (offset : Z) : Z :=
  let addr := wrap64 (area_addr area + area_first area / 8) in
  wrap64 (addr + wrap64 (offset * (area_step area / 8))).

Definition area_zero : snd_pcm_channel_area_t :=
  {| area_addr := 0; area_first := 0; area_step := 0 |}.

(** [&areas[c]]; the caller owns the array, reading past its end is left to
    yield a zeroed descriptor. *)
Definition area_at (areas : list snd_pcm_channel_area_t) (c : Z) : snd_pcm_channel_area_t :=
  nth (Z.to_nat c) areas area_zero.

(** The inner loop of audio_hook_complex_to_interleaved, [n] turns from frame
    [s] on, [off] being the running output offset. *)
Fixpoint complex_frames (n : nat) (area : snd_pcm_channel_area_t)
    (offset s off add ssize to : Z) (m : memory) : memory :=
  match n with
  | O => m
  | S n' =>
      complex_frames n' area offset (s + 1) (wrap64 (off + add)) add ssize to
        (memcpy (wrap64 (to + off))
                (audio_hook_alsa_mmap_pos area (wrap64 (offset + s))) ssize m)
  end.

(** The outer loop, [n] turns from channel [c] on: [off = add * c]. *)
Fixpoint complex_channels (n : nat) (areas : list snd_pcm_channel_area_t)
    (c offset frames add ssize to : Z) (m : memory) : memory :=
  match n with
  | O => m
  | S n' =>
      complex_channels n' areas (c + 1) offset frames add ssize to
        (complex_frames (Z.to_nat frames) (area_at areas c) offset 0
           (wrap64 (add * c)) add ssize to m)
  end.

Definition audio_hook_complex_to_interleaved (areas : list snd_pcm_channel_area_t)
    (offset frames to : Z) : M focus Z :=
  stream <- stream_get ;;
  let add := wrap64 (snd_pcm_frames_to_bytes (pcm stream) 1) in
  let ssize := wrap64 (snd_pcm_samples_to_bytes (pcm stream) 1) in
  state_set (fun st => set_mem
    (complex_channels (Z.to_nat (channels stream)) areas 0 offset frames add ssize to
       (mem st)) st) ;;
  ret 0.

(** The per-channel copy of writen and of the planar mmap path, [n] turns
    from channel [c] on: [len] bytes from [src c] to [to + c * len]. *)
Fixpoint copy_channels (n : nat) (c : Z) (src : Z -> Z) (len to : Z) (m : memory) : memory :=
  match n with
  | O => m
  | S n' =>
      copy_channels n' (c + 1) src len to
        (memcpy (wrap64 (to + c * len)) (src c) (wrap64 len) m)
  end.

(** *** The entry points called from the ALSA wrappers *)

Definition audio_hook_alsa_open (p : Z) (name : string) (pcm_stream mode : Z) : M state Z :=
  i <- audio_hook_get_stream_alsa p ;;
  on_stream i
    (stream_set (set_mode mode) ;;
     glc_log GLC_INFORMATION
       "%p: opened device %s with mode is 0x%02x (async=%s, nonblock=%s)" ;;
     ret 0).

Definition audio_hook_alsa_close (p : Z) : M state Z :=
  i <- audio_hook_get_stream_alsa p ;;
  on_stream i
    (glc_log GLC_INFORMATION "%p: closing stream %d" ;;
     stream_set (set_fmt 0) ;;
     ret 0).

Definition audio_hook_alsa_i (p buffer size : Z) : M state Z :=
  st <- state_get ;;
  if negb (capturing st) then ret 0 else
  i <- audio_hook_get_stream_alsa p ;;
  on_stream i
    (stream <- stream_get ;;
     if initialized stream =? 0 then audio_hook_unlock_write ;; ret EINVAL else
     r <- audio_hook_lock_write ;;
     if negb (r =? 0) then ret r else
     r <- audio_hook_wait_for_thread ;;
     if negb (r =? 0) then audio_hook_unlock_write ;; ret r else
     r <- audio_hook_set_data_size (wrap64 (snd_pcm_frames_to_bytes p size)) ;;
     if negb (r =? 0) then audio_hook_unlock_write ;; ret r else
     time <- glc_state_time ;;
     stream_set (set_capture_time time) ;;
     stream <- stream_get ;;
     do_memcpy (capture_data stream) buffer (capture_size stream) ;;
     sem_post capture_full set_capture_full ;;
     audio_hook_unlock_write ;;
     ret r).

Definition audio_hook_alsa_n (p : Z) (bufs : list Z) (size : Z) : M state Z :=
  st <- state_get ;;
  if negb (capturing st) then ret 0 else
  i <- audio_hook_get_stream_alsa p ;;
  on_stream i
    (stream <- stream_get ;;
     if initialized stream =? 0 then audio_hook_unlock_write ;; ret EINVAL else
     r <- audio_hook_lock_write ;;
     if negb (r =? 0) then ret r else
     if negb (Z.land (flags stream) GLC_AUDIO_INTERLEAVED =? 0) then
       glc_log GLC_ERROR
         "stream format (interleaved) incompatible with snd_pcm_writen()" ;;
       audio_hook_unlock_write ;; ret EINVAL
     else
     r <- audio_hook_wait_for_thread ;;
     if negb (r =? 0) then audio_hook_unlock_write ;; ret r else
     r <- audio_hook_set_data_size (wrap64 (snd_pcm_frames_to_bytes p size)) ;;
     if negb (r =? 0) then audio_hook_unlock_write ;; ret r else
     time <- glc_state_time ;;
     stream_set (set_capture_time time) ;;
     stream <- stream_get ;;
     state_set (fun st => set_mem
       (copy_channels (Z.to_nat (channels stream)) 0 (fun c => nth (Z.to_nat c) bufs NULL)
          (snd_pcm_samples_to_bytes p size) (capture_data stream) (mem st)) st) ;;
     sem_post capture_full set_capture_full ;;
     audio_hook_unlock_write ;;
     ret r).

Definition audio_hook_alsa_mmap_begin (p : Z) (areas : list snd_pcm_channel_area_t)
    (offset frames : Z) : M state Z :=
  st <- state_get ;;
  if negb (capturing st) then ret 0 else
  i <- audio_hook_get_stream_alsa p ;;
  on_stream i
    (stream <- stream_get ;;
     if initialized stream =? 0 then audio_hook_unlock_write ;; ret EINVAL else
     r <- audio_hook_lock_write ;;
     if negb (r =? 0) then ret r else
     stream_set (set_mmap_areas (Some areas)) ;;
     stream_set (set_frames frames) ;;
     stream_set (set_offset offset) ;;
     audio_hook_unlock_write ;;
     ret 0).

(** [stream->offset], for where a parameter of that name hides the field. *)
Definition recorded_offset (stream : audio_hook_stream_s) : Z := offset stream.

Definition audio_hook_alsa_mmap_commit (p offset frames : Z) : M state Z :=
  st <- state_get ;;
  if negb (capturing st) then ret 0 else
  i <- audio_hook_get_stream_alsa p ;;
  on_stream i
    (r <- audio_hook_lock_write ;;
     if negb (r =? 0) then ret r else
     stream <- stream_get ;;
     if channels stream =? 0 then audio_hook_unlock_write ;; ret r else
     match mmap_areas stream with
     | None =>
         glc_log GLC_WARNING "snd_pcm_mmap_commit() before snd_pcm_mmap_begin()" ;;
         ret EINVAL
     | Some areas =>
         (if negb (offset =? recorded_offset stream)
          then glc_log GLC_WARNING "offset=%lu != stream->offset=%lu"
          else ret tt) ;;
         r <- audio_hook_wait_for_thread ;;
         if negb (r =? 0) then audio_hook_unlock_write ;; ret r else
         r <- audio_hook_set_data_size (wrap64 (snd_pcm_frames_to_bytes p frames)) ;;
         if negb (r =? 0) then audio_hook_unlock_write ;; ret r else
         time <- glc_state_time ;;
         stream_set (set_capture_time time) ;;
         stream <- stream_get ;;
         (if negb (Z.land (flags stream) GLC_AUDIO_INTERLEAVED =? 0) then
            do_memcpy (capture_data stream)
              (audio_hook_alsa_mmap_pos (area_at areas 0) offset) (capture_size stream)
          else if negb (complex stream =? 0) then
            audio_hook_complex_to_interleaved areas offset frames (capture_data stream) ;;
            ret tt
          else
            state_set (fun st => set_mem
              (copy_channels (Z.to_nat (channels stream)) 0
                 (fun c => audio_hook_alsa_mmap_pos (area_at areas c) offset)
                 (snd_pcm_samples_to_bytes (pcm stream) frames) (capture_data stream)
                 (mem st)) st)) ;;
         sem_post capture_full set_capture_full ;;
         audio_hook_unlock_write ;;
         ret r
     end).

(** The [err:] label of audio_hook_alsa_hw_params. *)
Definition hw_params_err (r : Z) : M focus Z :=
  glc_log GLC_ERROR "%p: can't extract hardware configuration: %s (%d)" ;;
  audio_hook_unlock_write ;;
  ret r.

(** What follows the choice of the access mode, from the second debug line
    on. *)
Definition hw_params_tail : M focus Z :=
  glc_log GLC_DEBUG "%p: %d channels, rate %d, flags 0x%02x" ;;
  stream_set (set_fmt 1) ;;
  st <- state_get ;;
  r <- (if negb (h_started (hook st) =? 0) then audio_hook_stream_init else ret 0) ;;
  if negb (r =? 0) then hw_params_err r else
  audio_hook_unlock_write ;;
  ret 0.

Definition audio_hook_alsa_hw_params (p : Z) (params : snd_pcm_hw_params_t) : M state Z :=
  i <- audio_hook_get_stream_alsa p ;;
  on_stream i
    (r <- audio_hook_lock_write ;;
     if negb (r =? 0) then ret r else
     glc_log GLC_DEBUG "%p: creating/updating configuration for stream %d" ;;
     let (r, format) := hw_format params in
     if r <? 0 then hw_params_err r else
     stream_set (set_flags 0) ;;
     stream_set (fun s => set_flags (Z.lor (flags s) (pcm_fmt_to_glc_fmt format)) s) ;;
     stream <- stream_get ;;
     if negb (Z.land (flags stream) GLC_AUDIO_FORMAT_UNKNOWN =? 0) then
       glc_log GLC_ERROR "%p: unsupported audio format 0x%02x" ;;
       hw_params_err ENOTSUP
     else
     let (r, v) := hw_rate params in
     if r <? 0 then hw_params_err r else
     stream_set (set_rate v) ;;
     let (r, v) := hw_channels params in
     if r <? 0 then hw_params_err r else
     stream_set (set_channels v) ;;
     let (r, period_size) := hw_period_size params in
     if r <? 0 then hw_params_err r else
     let (r, access) := hw_access params in
     if r <? 0 then hw_params_err r else
     if (access =? SND_PCM_ACCESS_RW_INTERLEAVED)
        || (access =? SND_PCM_ACCESS_MMAP_INTERLEAVED) then
       stream_set (fun s => set_flags (Z.lor (flags s) GLC_AUDIO_INTERLEAVED) s) ;;
       hw_params_tail
     else if access =? SND_PCM_ACCESS_MMAP_COMPLEX then
       stream_set (fun s => set_flags (Z.lor (flags s) GLC_AUDIO_INTERLEAVED) s) ;;
       stream_set (set_complex 1) ;;
       hw_params_tail
     else
       glc_log GLC_ERROR "%p: unsupported access mode 0x%02x" ;;
       hw_params_err ENOTSUP).

(** ** Vocabulary of the properties *)

(** The stream audio_hook_get_stream_alsa yields for a handle: the first one
    of the list with that handle, or a new one. *)
Definition located (p : Z) (st : state) : audio_hook_stream_s :=
  match stream_find p (h_stream (hook st)) with
  | Some i => stream_at i (hook st)
  | None => stream_new p
  end.

(** The process once audio_hook_get_stream_alsa has run for [p]. *)
Definition registered (p : Z) (st : state) : state :=
  match stream_find p (h_stream (hook st)) with
  | Some _ => st
  | None => set_hook (set_h_stream (stream_new p :: h_stream (hook st)) (hook st)) st
  end.

(** Two states agree on the scalar fields of the hook. *)
Definition same_scalars (st st' : state) : Prop :=
  h_glc (hook st') = h_glc (hook st) /\
  h_flags (hook st') = h_flags (hook st) /\
  h_to (hook st') = h_to (hook st) /\
  h_started (hook st') = h_started (hook st).

(** The state a call ends in, returned or blocked. *)
Definition final {S A} (o : outcome S A) : S :=
  match o with
  | Ret _ s => s
  | Blocked s => s
  end.

(** Whatever way a call ends, in the state [st'] it ends in. *)
Definition ends {S A} (o : outcome S A) (st' : S) : Prop :=
  match o with
  | Ret _ s => s = st'
  | Blocked s => s = st'
  end.

Definition is_packet (e : event) : bool :=
  match e with ev_packet _ _ => true | _ => false end.

Definition packets (t : list event) : list event := filter is_packet t.

(** A call from [st] to [st'] hands nothing to the worker of the stream of
    [p] and writes nothing downstream: no message on the transport, no post
    on [capture_full], the memory (hence the scratch buffer) as it was. *)
Definition emits_nothing (p : Z) (st st' : state) : Prop :=
  packets (trace st') = packets (trace st) /\
  capture_full (located p st') = capture_full (located p st) /\
  mem st' = mem st.

(** The write lock a call on [stream] would take is free. *)
Definition write_lock_free (stream : audio_hook_stream_s) : Prop :=
  (if async stream then write_spinlock stream else write_mutex stream) = 0.

(** The lock and unlock events of a trace, oldest first. *)
Definition is_lock_event (e : event) : bool :=
  match e with ev_lock _ _ | ev_unlock _ _ => true | _ => false end.

Definition lock_events (t : list event) : list event := rev (filter is_lock_event t).

(** The events added from [st] to [st']. *)
Definition new_events (st st' : state) : list event :=
  firstn (List.length (trace st') - List.length (trace st)) (trace st').

(** The lock discipline of one call: nothing, or one acquisition followed by
    the release of that lock. *)
Definition lock_discipline (evs : list event) : Prop :=
  evs = [] \/ exists p k, evs = [ev_lock p k; ev_unlock p k].

Definition allocation_fails (st : state) : Prop := hd NULL (allocs st) = NULL.

(** The lock audio_hook_lock_write and audio_hook_unlock_write pick for a
    stream, and the stream once it is taken or released. *)
Definition write_lock_kind (stream : audio_hook_stream_s) : lock_kind :=
  if async stream then spinlock else mutex.

Definition lock_taken (stream : audio_hook_stream_s) : audio_hook_stream_s :=
  if async stream then set_write_spinlock 1 stream else set_write_mutex 1 stream.

Definition lock_released (stream : audio_hook_stream_s) : audio_hook_stream_s :=
  if async stream then set_write_spinlock 0 stream else set_write_mutex 0 stream.

(** [stream->frames], for where a parameter of that name hides the field. *)
Definition recorded_frames (stream : audio_hook_stream_s) : Z := frames stream.

Definition allow_skip_set (st : state) : bool :=
  negb (Z.land (h_flags (hook st)) AUDIO_HOOK_ALLOW_SKIP =? 0).

(** No two streams of the hook have the same handle. *)
Definition unique_handles (st : state) : Prop :=
  NoDup (map pcm (h_stream (hook st))).

(** No stream of the list has a worker that destroy would have to wait
    for. *)
Definition no_worker (l : list audio_hook_stream_s) : Prop :=
  Forall (fun s => capture_running s = 0) l.

Definition is_free_stream (e : event) : bool :=
  match e with ev_free_stream _ => true | _ => false end.

(** The handles of the streams freed in a trace, oldest first. *)
Definition freed_streams (t : list event) : list Z :=
  rev (flat_map (fun e => match e with ev_free_stream p => [p] | _ => [] end) t).

(** The layout section 4.8 of the specification asks of the converter: every
    sample [s] of every channel [c] at [s * frame_bytes + c * sample_bytes]
    of the output. *)
Definition interleaved (p : Z) (areas : list snd_pcm_channel_area_t)
    (nchannels offset frames to : Z) (m m' : memory) : Prop :=
  let sample_bytes := snd_pcm_samples_to_bytes p 1 in
  let frame_bytes := snd_pcm_frames_to_bytes p 1 in
  forall c s, 0 <= c < nchannels -> 0 <= s < frames ->
    load m' (to + s * frame_bytes + c * sample_bytes) sample_bytes =
    load m (audio_hook_alsa_mmap_pos (area_at areas c) (offset + s)) sample_bytes.

End AudioHook.

(** ** A concrete process: stereo, signed 16 bit *)

Module Scenario.

(** One choice of distinct flag bits. *)
#[local] Instance glc_flags : glc_h :=
  {| GLC_AUDIO_INTERLEAVED := 1; GLC_AUDIO_FORMAT_UNKNOWN := 2; GLC_AUDIO_S16_LE := 4;
     GLC_AUDIO_S24_LE := 8; GLC_AUDIO_S32_LE := 16 |}.

(** ALSA on a device of 2 channels of 16 bits. *)
#[local] Instance stereo_s16 : asoundlib :=
  {| snd_pcm_frames_to_bytes := fun _ n => n * 32 / 8;
     snd_pcm_samples_to_bytes := fun _ n => n * 16 / 8 |}.

Definition after {A} (m : M state A) (st : state) : state :=
  match m st with Ret _ st' => st' | Blocked st' => st' end.

(** Where the left channel has the samples 11 12 and 13 14 at 1000, the right
    one 21 22 and 23 24 at 2000. *)
Definition samples : memory :=
  fun a =>
    if (1000 <=? a) && (a <? 1004) then 11 + (a - 1000)
    else if (2000 <=? a) && (a <? 2004) then 21 + (a - 2000)
    else 0.

Definition areas : list snd_pcm_channel_area_t :=
  [ {| area_addr := 1000; area_first := 0; area_step := 16 |};
    {| area_addr := 2000; area_first := 0; area_step := 16 |} ].

Definition boot : state :=
  {| hook := {| h_glc := 0; h_flags := 0; h_to := NULL; h_started := 0; h_stream := [] |};
     mem := samples; allocs := [3000]; audio_count := 0; clock := 0; trace := [] |}.

Definition hw (format rt ch access : Z) : snd_pcm_hw_params_t :=
  {| hw_format := (0, format); hw_rate := (0, rt); hw_channels := (0, ch);
     hw_period_size := (0, 1024); hw_access := (0, access) |}.

Definition s16_stereo_rw : snd_pcm_hw_params_t :=
  hw SND_PCM_FORMAT_S16_LE 44100 2 SND_PCM_ACCESS_RW_INTERLEAVED.

(** init, set_buffer: a hook with its transport, not started. *)
Definition bound : state :=
  after (audio_hook_init 77 ;; audio_hook_set_buffer 500) boot.

(** init, set_buffer, start: capturing, no stream yet. *)
Definition capturing_hook : state := after audio_hook_start bound.

(** ... and hw_params for the handle 1: that stream is initialized. *)
Definition configured : state :=
  after (audio_hook_alsa_hw_params 1 s16_stereo_rw) capturing_hook.

(** The handle 1 after a first writei of 4 frames from 1000 and one turn of
    its worker: the scratch buffer is 16 bytes at 3000, the slot is empty. *)
Definition primed : state :=
  after (audio_hook_alsa_i 1 1000 4 ;; on_stream 0 audio_hook_thread_turn) configured.

(** A capturing hook with allow-skip and an initialized stream for the
    handle 2 opened in ASYNC mode, whose worker has not come round to set
    [capture_ready]. *)
Definition async_busy : state :=
  after (audio_hook_init 77 ;; audio_hook_set_buffer 500 ;; audio_hook_allow_skip 1 ;;
         audio_hook_start ;; audio_hook_alsa_open 2 "default" 0 SND_PCM_ASYNC ;;
         audio_hook_alsa_hw_params 2 s16_stereo_rw) boot.

(** [configured] after an mmap_commit that no mmap_begin preceded: the
    mutex of the stream is left held. *)
Definition locked : state := after (audio_hook_alsa_mmap_commit 1 0 4) configured.

(** The handle 1 with a payload posted and not yet taken by the worker. *)
Definition posted : state := after (audio_hook_alsa_i 1 1000 4) configured.

(** [async_busy] with allow-skip withdrawn. *)
Definition async_strict : state := after (audio_hook_allow_skip 0) async_busy.

(** [primed] after an mmap_begin of 4 frames at offset 0. *)
Definition mapped : state := after (audio_hook_alsa_mmap_begin 1 areas 0 4) primed.

(** A hook with its transport and one stream that was opened only. *)
Definition opened : state := after (audio_hook_alsa_open 1 "default" 0 0) bound.


(** A stream of 1 channel for the converter alone. *)
Definition mono : audio_hook_stream_s := set_channels 1 (stream_new 1).

(** A stream of 2 channels for the converter alone. *)
Definition stereo : audio_hook_stream_s := set_channels 2 (stream_new 1).

(** hw_params for the handle 1 before start: configured, not initialized. *)
Definition pending : state :=
  after (audio_hook_alsa_hw_params 1 s16_stereo_rw) bound.

(** A process whose allocator has nothing left. *)
Definition exhausted : state := set_allocs [] boot.

Definition convert_2_frames : outcome focus Z :=
  audio_hook_complex_to_interleaved areas 0 2 3000 (stereo, boot).

End Scenario.

(** * Properties *)

Section Properties.
Context {glc : glc_h} {alsa : asoundlib}.

(** ** Record and bit bookkeeping *)

Lemma set_h_flags_same (h : audio_hook_s) : set_h_flags (h_flags h) h = h.
Proof. destruct h; reflexivity. Qed.

Lemma set_hook_same (st : state) : set_hook (hook st) st = st.
Proof. destruct st; reflexivity. Qed.

Lemma capturing_bit (f : Z) :
  Z.land f AUDIO_HOOK_CAPTURING <> 0 -> Z.lor f AUDIO_HOOK_CAPTURING = f.
Proof.
  unfold AUDIO_HOOK_CAPTURING. intros Hbit.
  apply Z.bits_inj'. intros n Hn.
  rewrite Z.lor_spec.
  destruct (Z.eq_dec n 0) as [-> | Hne].
  - destruct (Z.testbit f 0) eqn:Hf; [reflexivity | exfalso; apply Hbit].
    apply Z.bits_inj'. intros k Hk.
    rewrite Z.land_spec, Z.bits_0.
    destruct (Z.eq_dec k 0) as [-> | Hk0].
    + rewrite Hf. reflexivity.
    + replace (Z.testbit 1 k) with false; [apply andb_false_r |].
      symmetry. apply (Z.bits_above_log2 1 k); simpl; lia.
  - replace (Z.testbit 1 n) with false; [apply orb_false_r |].
    symmetry. apply (Z.bits_above_log2 1 n); simpl; lia.
Qed.

Lemma capturing_set (f : Z) : Z.land (Z.lor f AUDIO_HOOK_CAPTURING) AUDIO_HOOK_CAPTURING <> 0.
Proof.
  unfold AUDIO_HOOK_CAPTURING. intros H.
  assert (Hb : Z.testbit (Z.land (Z.lor f 1) 1) 0 = true).
  { rewrite Z.land_spec, Z.lor_spec. simpl. rewrite orb_true_r. reflexivity. }
  rewrite H in Hb. rewrite Z.bits_0 in Hb. discriminate.
Qed.

(** ** The list of streams *)

Lemma stream_find_some (p : Z) (l : list audio_hook_stream_s) (i : nat) :
  stream_find p l = Some i ->
  (i < List.length l)%nat /\ pcm (nth i l stream_zero) = p.
Proof.
  revert i. induction l as [| s l IH]; intros i Hfind; simpl in Hfind.
  - discriminate.
  - destruct (pcm s =? p) eqn:Hs.
    + injection Hfind as <-. simpl. split; [lia | apply Z.eqb_eq; exact Hs].
    + destruct (stream_find p l) as [j |]; simpl in Hfind; [| discriminate].
      injection Hfind as <-. destruct (IH j eq_refl) as [Hlt Hpcm].
      simpl. split; [lia | exact Hpcm].
Qed.

Lemma stream_find_put (p : Z) (l : list audio_hook_stream_s) (i : nat)
    (s : audio_hook_stream_s) :
  stream_find p l = Some i -> pcm s = p ->
  stream_find p (list_put i s l) = Some i.
Proof.
  revert i. induction l as [| s0 l IH]; intros i Hfind Hs; simpl in Hfind.
  - discriminate.
  - destruct (pcm s0 =? p) eqn:Hs0.
    + injection Hfind as <-. simpl. rewrite Hs, Z.eqb_refl. reflexivity.
    + destruct (stream_find p l) as [j |] eqn:Hj; simpl in Hfind; [| discriminate].
      injection Hfind as <-. simpl. rewrite Hs0, (IH j eq_refl Hs). reflexivity.
Qed.

Lemma nth_list_put (i : nat) (s : audio_hook_stream_s) (l : list audio_hook_stream_s) :
  (i < List.length l)%nat -> nth i (list_put i s l) stream_zero = s.
Proof.
  revert i. induction l as [| s0 l IH]; intros i Hlt; simpl in Hlt.
  - lia.
  - destruct i as [| i]; simpl; [reflexivity | apply IH; lia].
Qed.

Lemma located_pcm (p : Z) (st : state) : pcm (located p st) = p.
Proof.
  unfold located. destruct (stream_find p (h_stream (hook st))) as [i |] eqn:Hfind.
  - apply (stream_find_some _ _ _ Hfind).
  - reflexivity.
Qed.

Lemma located_put (p : Z) (i : nat) (s : audio_hook_stream_s) (st : state) :
  stream_find p (h_stream (hook st)) = Some i -> pcm s = p ->
  located p (put_stream i s st) = s.
Proof.
  intros Hfind Hs. unfold located, put_stream, stream_at. cbn.
  rewrite (stream_find_put _ _ _ _ Hfind Hs).
  apply nth_list_put. apply (stream_find_some _ _ _ Hfind).
Qed.

Lemma registered_find (p : Z) (st : state) :
  exists i,
    audio_hook_get_stream_alsa p st = Ret i (registered p st) /\
    stream_find p (h_stream (hook (registered p st))) = Some i /\
    stream_at i (hook (registered p st)) = located p st.
Proof.
  unfold audio_hook_get_stream_alsa, registered, located, bind, state_get, state_set, ret.
  cbn. destruct (stream_find p (h_stream (hook st))) as [i |] eqn:Hfind.
  - exists i. repeat split. exact Hfind.
  - exists O. cbn. rewrite Z.eqb_refl. repeat split.
Qed.

Lemma registered_rest (p : Z) (st : state) :
  h_flags (hook (registered p st)) = h_flags (hook st) /\
  h_to (hook (registered p st)) = h_to (hook st) /\
  h_started (hook (registered p st)) = h_started (hook st) /\
  mem (registered p st) = mem st /\
  allocs (registered p st) = allocs st /\
  audio_count (registered p st) = audio_count st /\
  trace (registered p st) = trace st.
Proof.
  unfold registered. destruct (stream_find p (h_stream (hook st))); repeat split.
Qed.

Lemma registered_known (p : Z) (st : state) :
  initialized (located p st) <> 0 -> registered p st = st.
Proof.
  unfold located, registered.
  destruct (stream_find p (h_stream (hook st))); [reflexivity |].
  cbn. intros H. contradiction H. reflexivity.
Qed.

Lemma list_put_same (i : nat) (l : list audio_hook_stream_s) :
  list_put i (nth i l stream_zero) l = l.
Proof.
  revert i. induction l as [| s l IH]; intros i; [destruct i; reflexivity |].
  destruct i as [| i]; simpl; [reflexivity | rewrite IH; reflexivity].
Qed.

Lemma put_stream_same (i : nat) (st : state) : put_stream i (stream_at i (hook st)) st = st.
Proof.
  unfold put_stream, stream_at. rewrite list_put_same.
  destruct st as [[g f t sd l] m a c k tr]. reflexivity.
Qed.

(** ** The facade *)

(** C9: destroy of a NULL hook yields EINVAL and leaves the process, its
    trace of deallocations included, as it was. *)
Theorem destroy_null (st : state) :
  audio_hook_destroy NULL st = Ret EINVAL st.
Proof. reflexivity. Qed.

(** C7: set_buffer binds the transport once.  On a hook without transport
    the call with a transport yields success and records it; on a hook with
    a transport every call yields EALREADY and changes nothing, so the
    transport bound first stays. *)
Theorem set_buffer_once (st : state) (transport : Z) :
  h_to (hook st) = NULL -> transport <> NULL ->
  exists st1,
    audio_hook_set_buffer transport st = Ret 0 st1 /\
    h_to (hook st1) = transport /\
    forall st2 other,
      h_to (hook st2) = transport ->
      audio_hook_set_buffer other st2 = Ret EALREADY st2.
Proof.
  intros Hnone Hsome.
  exists (set_hook (set_h_to transport (hook st)) st). split; [| split].
  - unfold audio_hook_set_buffer, bind, state_get, state_set, ret. cbn.
    rewrite Hnone. reflexivity.
  - reflexivity.
  - intros st2 other Hto.
    unfold audio_hook_set_buffer, bind, state_get, ret. cbn.
    rewrite Hto. destruct (transport =? NULL) eqn:E; [| reflexivity].
    apply Z.eqb_eq in E. contradiction.
Qed.

(** C10: growing the scratch buffer is not atomic.  When the requested size
    exceeds the capacity and the allocation fails, the call yields ENOMEM
    with [capture_size] and [capture_data_size] already at the requested
    size and no buffer behind them. *)
Theorem set_data_size_enomem (stream : audio_hook_stream_s) (st : state) (size : Z) :
  capture_data_size stream < size ->
  allocation_fails st ->
  exists stream' st',
    audio_hook_set_data_size size (stream, st) = Ret ENOMEM (stream', st') /\
    capture_size stream' = size /\
    capture_data_size stream' = size /\
    capture_data stream' = NULL.
Proof.
  intros Hgrow Hfail.
  assert (Hle : (size <=? capture_data_size stream) = false) by (apply Z.leb_gt; exact Hgrow).
  unfold allocation_fails in Hfail.
  unfold audio_hook_set_data_size, realloc, malloc, bind, stream_get, stream_set,
    state_get, state_set, ret.
  cbn. rewrite Hle.
  destruct (allocs st) as [| a rest] eqn:Hallocs; cbn in Hfail |- *.
  - destruct (capture_data stream =? NULL); cbn; rewrite Hallocs; cbn; eauto 10.
  - subst a. destruct (capture_data stream =? NULL); cbn; rewrite Hallocs; cbn; eauto 10.
Qed.

(** ** Capturing off *)

(** C4, as the code has it: writei, writen, mmap_begin and mmap_commit
    return success and leave the process as it was when the capturing flag
    is clear.  open and close do not look at the flag; they return success
    in every state. *)
Theorem not_capturing_noop (st : state) :
  capturing st = false ->
  (forall p buffer size, audio_hook_alsa_i p buffer size st = Ret 0 st) /\
  (forall p bufs size, audio_hook_alsa_n p bufs size st = Ret 0 st) /\
  (forall p areas offset frames,
     audio_hook_alsa_mmap_begin p areas offset frames st = Ret 0 st) /\
  (forall p offset frames, audio_hook_alsa_mmap_commit p offset frames st = Ret 0 st) /\
  (forall p name pcm_stream mode,
     exists st', audio_hook_alsa_open p name pcm_stream mode st = Ret 0 st') /\
  (forall p, exists st', audio_hook_alsa_close p st = Ret 0 st').
Proof.
  intros Hoff. repeat split; intros.
  - unfold audio_hook_alsa_i, bind, state_get. cbn. rewrite Hoff. reflexivity.
  - unfold audio_hook_alsa_n, bind, state_get. cbn. rewrite Hoff. reflexivity.
  - unfold audio_hook_alsa_mmap_begin, bind, state_get. cbn. rewrite Hoff. reflexivity.
  - unfold audio_hook_alsa_mmap_commit, bind, state_get. cbn. rewrite Hoff. reflexivity.
  - destruct (registered_find p st) as (i & Hget & _).
    unfold audio_hook_alsa_open, bind. rewrite Hget.
    unfold on_stream. cbn. eauto.
  - destruct (registered_find p st) as (i & Hget & _).
    unfold audio_hook_alsa_close, bind. rewrite Hget.
    unfold on_stream. cbn. eauto.
Qed.

(** ** start *)

Ltac break_if :=
  match goal with
  | |- context [if ?c then _ else _] => destruct c eqn:?
  end.

#[local] Arguments audio_hook_stream_init : simpl never.

Lemma stream_init_hook (s s' : audio_hook_stream_s) (st st' : state) :
  ends (audio_hook_stream_init (s, st)) (s', st') -> hook st' = hook st.
Proof.
  unfold audio_hook_stream_init, glc_state_audio_new, ps_packet_init, ps_packet_destroy,
    ps_packet_message, sem_post, sem_wait, glc_log, emit, block, bind, stream_get,
    stream_set, state_get, state_set, ret.
  cbn. repeat (break_if; cbn); intros H; injection H as _ <-; reflexivity.
Qed.

Lemma init_pending_scalars (i : nat) (st st' : state) :
  ends (init_pending i st) st' -> same_scalars st st'.
Proof.
  unfold init_pending, on_stream, bind, stream_get. cbn.
  destruct (negb (fmt (stream_at i (hook st)) =? 0)
            && (initialized (stream_at i (hook st)) =? 0)).
  - destruct (audio_hook_stream_init (stream_at i (hook st), st)) as [r [s1 st1] | [s1 st1]] eqn:Hinit;
      cbn; intros <-;
      assert (Hhook : hook st1 = hook st)
        by (apply (stream_init_hook (stream_at i (hook st)) s1); rewrite Hinit; reflexivity);
      unfold same_scalars; cbn; rewrite Hhook; repeat split.
  - cbn. intros <-. unfold same_scalars. cbn. repeat split.
Qed.

Lemma for_each_init_scalars (l : list nat) (st st' : state) :
  ends (for_each l init_pending st) st' -> same_scalars st st'.
Proof.
  revert st. induction l as [| i l IH]; intros st; simpl.
  - cbn. intros <-. unfold same_scalars. repeat split.
  - unfold bind. destruct (init_pending i st) as [[] st1 | st1] eqn:Hi.
    + intros Hrest. apply IH in Hrest.
      assert (H1 : same_scalars st st1) by (apply (init_pending_scalars i); rewrite Hi; reflexivity).
      unfold same_scalars in *. intuition congruence.
    + cbn. intros <-. apply (init_pending_scalars i). rewrite Hi. reflexivity.
Qed.

(** A start on a hook that is started and capturing: success, one warning,
    nothing else. *)
Lemma start_again (st : state) :
  h_to (hook st) <> NULL -> h_started (hook st) <> 0 -> capturing st = true ->
  audio_hook_start st =
  Ret 0 (set_trace (ev_log GLC_WARNING "capturing is already active" :: trace st) st).
Proof.
  intros Hto Hstarted Hcap.
  unfold audio_hook_start, glc_log, emit, bind, state_get, state_set, ret. cbn.
  apply Z.eqb_neq in Hto, Hstarted. rewrite Hto, Hstarted. cbn.
  unfold capturing in Hcap |- *. cbn. rewrite Hcap. cbn.
  rewrite capturing_bit.
  - rewrite set_h_flags_same. destruct st as [h m a c k t]. reflexivity.
  - apply negb_true_iff, Z.eqb_neq in Hcap. exact Hcap.
Qed.

(** C8: when start has returned success, the hook is started and capturing,
    and a second start returns success, logs the warning and changes nothing
    else: the hook and its streams, the memory, the allocator, the glc state
    stay what the first call left. *)
Theorem start_twice (st st1 : state) :
  audio_hook_start st = Ret 0 st1 ->
  h_started (hook st1) <> 0 /\ capturing st1 = true /\
  audio_hook_start st1 =
  Ret 0 (set_trace (ev_log GLC_WARNING "capturing is already active" :: trace st1) st1).
Proof.
  intros Hfirst.
  assert (Hfacts : h_to (hook st1) <> NULL /\ h_started (hook st1) <> 0 /\ capturing st1 = true).
  { revert Hfirst.
    unfold audio_hook_start, bind at 1, state_get at 1. cbn.
    destruct (h_to (hook st) =? NULL) eqn:Hto.
    - cbn. intros H. discriminate H.
    - apply Z.eqb_neq in Hto.
      assert (Hmid : forall o : outcome state Z,
                (forall st', ends o st' ->
                   h_to (hook st') <> NULL /\ h_started (hook st') <> 0) ->
                bind (fun s => o)
                  (fun _ => st0 <- state_get ;;
                     (if capturing st0
                      then glc_log GLC_WARNING "capturing is already active"
                      else glc_log GLC_INFORMATION "starting capturing") ;;
                     state_set (set_hook (set_h_flags
                       (Z.lor (h_flags (hook st0)) AUDIO_HOOK_CAPTURING) (hook st0))) ;;
                     ret 0) st = Ret 0 st1 ->
                h_to (hook st1) <> NULL /\ h_started (hook st1) <> 0 /\ capturing st1 = true).
      { intros o Ho. unfold bind, glc_log, emit, state_get, state_set, ret.
        destruct o as [r st' | st']; [| discriminate].
        destruct (Ho st' eq_refl) as [Hto' Hst'].
        cbn. destruct (capturing st'); cbn; intros H; injection H as <-;
          unfold capturing; cbn;
          (repeat split; [assumption | assumption |
             apply negb_true_iff, Z.eqb_neq, capturing_set]). }
      destruct (h_started (hook st) =? 0) eqn:Hstarted.
      + intros H. apply (Hmid (audio_hook_init_streams st)); [| exact H].
        intros st'. unfold audio_hook_init_streams, bind at 1, state_get at 1. cbn.
        apply Z.eqb_neq in Hto as Hto'. rewrite Hto', Hstarted. cbn.
        unfold bind at 1.
        destruct (for_each (seq 0 (List.length (h_stream (hook st)))) init_pending st)
          as [[] st2 | st2] eqn:Hloop.
        * cbn. intros <-. cbn.
          assert (Hs : same_scalars st st2)
            by (apply (for_each_init_scalars (seq 0 (List.length (h_stream (hook st)))));
                rewrite Hloop; reflexivity).
          destruct Hs as (_ & _ & Hto2 & _). rewrite Hto2. split; [exact Hto | discriminate].
        * cbn. intros <-. exfalso.
          revert H. unfold audio_hook_init_streams, bind, state_get. cbn.
          rewrite Hto', Hstarted. cbn. unfold bind in Hloop. rewrite Hloop. discriminate.
      + intros H. apply (Hmid (Ret 0 st)); [| exact H].
        cbn. intros st' <-. apply Z.eqb_neq in Hstarted. split; assumption. }
  destruct Hfacts as (Hto & Hstarted & Hcap).
  repeat split; [exact Hstarted | exact Hcap | apply start_again; assumption].
Qed.

(** ** The producer entry points on a capturing hook *)

#[local] Arguments located : simpl never.
#[local] Arguments registered : simpl never.

Ltac focus_run :=
  unfold audio_hook_lock_write, audio_hook_unlock_write, pthread_spin_lock,
    pthread_mutex_lock, pthread_spin_unlock, pthread_mutex_unlock, glc_log, emit,
    block, bind, stream_get, stream_set, state_get, state_set, ret;
  cbn.

(** writen on an initialized stream whose flags have INTERLEAVED, with the
    write lock free at the call. *)
Lemma writen_lock_free (st : state) (p : Z) (bufs : list Z) (size : Z) :
  capturing st = true ->
  initialized (located p st) <> 0 ->
  Z.land (flags (located p st)) GLC_AUDIO_INTERLEAVED <> 0 ->
  write_lock_free (located p st) ->
  exists st', audio_hook_alsa_n p bufs size st = Ret EINVAL st' /\ emits_nothing p st st'.
Proof.
  intros Hcap Hinit Hinter Hfree.
  destruct (registered_find p st) as (i & Hget & Hfind & Hat).
  destruct (registered_rest p st) as (_ & _ & _ & Hmem & _ & _ & Htrace).
  pose proof (located_pcm p st) as Hpcm.
  apply Z.eqb_neq in Hinit, Hinter.
  unfold audio_hook_alsa_n, bind at 1, state_get at 1. cbn.
  rewrite Hcap. cbn. unfold bind at 1. rewrite Hget.
  unfold on_stream. rewrite Hat.
  unfold write_lock_free in Hfree.
  set (s := located p st) in *.
  focus_run. rewrite Hinit, Hinter. cbn.
  unfold async in *. cbn.
  destruct (Z.land (mode s) SND_PCM_ASYNC =? 0) eqn:Hasync; cbn in Hfree |- *;
    rewrite Hfree; cbn; rewrite ?Hasync; cbn;
    (eexists; split; [reflexivity |]);
    unfold emits_nothing; rewrite located_put by (cbn; assumption);
    cbn; rewrite Htrace, Hmem; repeat split.
Qed.

(** C6, as the code has it: on a capturing hook, writen on an initialized
    stream whose flags have INTERLEAVED never hands anything over.  It takes
    the write lock first: with the lock free at the call it yields EINVAL,
    with no post on [capture_full], no write to the scratch buffer and no
    message downstream; with the lock held the call waits at the lock, the
    process being as it was at the call. *)
Theorem writen_on_interleaved_stream (st : state) (p : Z) (bufs : list Z) (size : Z) :
  capturing st = true ->
  initialized (located p st) <> 0 ->
  Z.land (flags (located p st)) GLC_AUDIO_INTERLEAVED <> 0 ->
  (write_lock_free (located p st) ->
   exists st', audio_hook_alsa_n p bufs size st = Ret EINVAL st' /\
               emits_nothing p st st') /\
  (~ write_lock_free (located p st) ->
   audio_hook_alsa_n p bufs size st = Blocked st).
Proof.
  intros Hcap Hinit Hinter. split.
  - intros Hfree. apply writen_lock_free; assumption.
  - intros Hheld.
    destruct (registered_find p st) as (i & Hget & _ & Hat).
    rewrite (registered_known p st Hinit) in Hget, Hat.
    rewrite <- Hat in Hinit, Hheld.
    apply Z.eqb_neq in Hinit.
    unfold audio_hook_alsa_n, bind at 1, state_get at 1. cbn.
    rewrite Hcap. cbn. unfold bind at 1. rewrite Hget.
    unfold on_stream.
    unfold write_lock_free in Hheld.
    set (s := stream_at i (hook st)) in *.
    focus_run. rewrite Hinit. cbn.
    unfold async in *. cbn.
    destruct (Z.land (mode s) SND_PCM_ASYNC =? 0) eqn:Hasync; cbn in Hheld |- *;
      apply Z.eqb_neq in Hheld; rewrite Hheld; cbn;
      subst s; rewrite put_stream_same; reflexivity.
Qed.

(** C2, as the code has it: on a capturing hook and a stream that is not
    initialized, writei, writen and mmap_begin yield EINVAL and hand nothing
    over.  mmap_commit does not test [initialized]: with the write lock free
    and no mmap area recorded (mmap_begin records none on such a stream) it
    yields success when the stream has no channels and EINVAL otherwise, and
    hands nothing over either. *)
Theorem uninitialized_stream (st : state) (p : Z) :
  capturing st = true ->
  initialized (located p st) = 0 ->
  (forall buffer size,
     exists st', audio_hook_alsa_i p buffer size st = Ret EINVAL st' /\
                 emits_nothing p st st') /\
  (forall bufs size,
     exists st', audio_hook_alsa_n p bufs size st = Ret EINVAL st' /\
                 emits_nothing p st st') /\
  (forall areas offset frames,
     exists st', audio_hook_alsa_mmap_begin p areas offset frames st = Ret EINVAL st' /\
                 emits_nothing p st st') /\
  (forall offset frames,
     write_lock_free (located p st) ->
     mmap_areas (located p st) = None ->
     exists st',
       audio_hook_alsa_mmap_commit p offset frames st =
         Ret (if channels (located p st) =? 0 then 0 else EINVAL) st' /\
       emits_nothing p st st').
Proof.
  intros Hcap Hinit.
  destruct (registered_find p st) as (i & Hget & Hfind & Hat).
  destruct (registered_rest p st) as (_ & _ & _ & Hmem & _ & _ & Htrace).
  pose proof (located_pcm p st) as Hpcm.
  apply Z.eqb_eq in Hinit.
  repeat split.
  - intros buffer size.
    unfold audio_hook_alsa_i, bind at 1, state_get at 1. cbn.
    rewrite Hcap. cbn. unfold bind at 1. rewrite Hget.
    unfold on_stream. rewrite Hat.
    set (s := located p st) in *.
    focus_run. rewrite Hinit. cbn. unfold async. cbn.
    destruct (Z.land (mode s) SND_PCM_ASYNC =? 0); cbn;
      (eexists; split; [reflexivity |]);
      unfold emits_nothing; rewrite located_put by (cbn; assumption);
      cbn; rewrite Htrace, Hmem; repeat split.
  - intros bufs size.
    unfold audio_hook_alsa_n, bind at 1, state_get at 1. cbn.
    rewrite Hcap. cbn. unfold bind at 1. rewrite Hget.
    unfold on_stream. rewrite Hat.
    set (s := located p st) in *.
    focus_run. rewrite Hinit. cbn. unfold async. cbn.
    destruct (Z.land (mode s) SND_PCM_ASYNC =? 0); cbn;
      (eexists; split; [reflexivity |]);
      unfold emits_nothing; rewrite located_put by (cbn; assumption);
      cbn; rewrite Htrace, Hmem; repeat split.
  - intros areas offset frames.
    unfold audio_hook_alsa_mmap_begin, bind at 1, state_get at 1. cbn.
    rewrite Hcap. cbn. unfold bind at 1. rewrite Hget.
    unfold on_stream. rewrite Hat.
    set (s := located p st) in *.
    focus_run. rewrite Hinit. cbn. unfold async. cbn.
    destruct (Z.land (mode s) SND_PCM_ASYNC =? 0); cbn;
      (eexists; split; [reflexivity |]);
      unfold emits_nothing; rewrite located_put by (cbn; assumption);
      cbn; rewrite Htrace, Hmem; repeat split.
  - intros offset frames Hfree Hareas.
    unfold audio_hook_alsa_mmap_commit, bind at 1, state_get at 1. cbn.
    rewrite Hcap. cbn. unfold bind at 1. rewrite Hget.
    unfold on_stream. rewrite Hat.
    unfold write_lock_free in Hfree.
    set (s := located p st) in *.
    focus_run. unfold async in *. cbn.
    destruct (Z.land (mode s) SND_PCM_ASYNC =? 0) eqn:Hasync; cbn in Hfree |- *;
      rewrite Hfree; cbn;
      (destruct (channels s =? 0) eqn:Hch; cbn; rewrite ?Hasync, ?Hareas; cbn);
      (eexists; split; [reflexivity |]);
      unfold emits_nothing; rewrite located_put by (cbn; assumption);
      cbn; rewrite Htrace, Hmem; repeat split.
Qed.

(** ** hw_params *)

#[local] Arguments hw_params_tail : simpl never.

Lemma stream_init_audio_id (s s' : audio_hook_stream_s) (st st' : state) :
  0 <= audio_count st ->
  audio_hook_stream_init (s, st) = Ret 0 (s', st') ->
  0 < audio_i s' /\ pcm s' = pcm s /\ hook st' = hook st.
Proof.
  intros Hcount.
  unfold audio_hook_stream_init, glc_state_audio_new, ps_packet_init, ps_packet_destroy,
    ps_packet_message, sem_post, sem_wait, glc_log, emit, block, bind, stream_get,
    stream_set, state_get, state_set, ret.
  cbn. repeat (break_if; cbn); intros H; try discriminate H;
    injection H as <- <-; cbn;
    repeat match goal with Hx : (_ <? _) = false |- _ => apply Z.ltb_ge in Hx end;
    repeat split; lia.
Qed.

Lemma unlock_write_keeps (s s' : audio_hook_stream_s) (st st' : state) (r : Z) :
  audio_hook_unlock_write (s, st) = Ret r (s', st') ->
  audio_i s' = audio_i s /\ pcm s' = pcm s /\ hook st' = hook st.
Proof.
  unfold audio_hook_unlock_write, pthread_spin_unlock, pthread_mutex_unlock, emit,
    bind, stream_get, stream_set, state_set, ret.
  cbn. destruct (async s); cbn; intros H; injection H as _ <- <-; repeat split.
Qed.

Lemma hw_params_tail_audio_id (s s' : audio_hook_stream_s) (st st' : state) :
  h_started (hook st) <> 0 ->
  0 <= audio_count st ->
  hw_params_tail (s, st) = Ret 0 (s', st') ->
  0 < audio_i s' /\ pcm s' = pcm s /\ hook st' = hook st.
Proof.
  intros Hstarted Hcount. apply Z.eqb_neq in Hstarted.
  unfold hw_params_tail, hw_params_err, glc_log, emit.
  unfold bind at 1 2 3 4, state_get, state_set, stream_set. cbn.
  rewrite Hstarted. cbn.
  destruct (audio_hook_stream_init _) as [r [s1 st1] | [s1 st1]] eqn:Hinit; [| discriminate].
  destruct (r =? 0) eqn:Hr; cbn.
  - apply Z.eqb_eq in Hr. subst r.
    apply stream_init_audio_id in Hinit; [| exact Hcount].
    cbn in Hinit. destruct Hinit as (Hid & Hp & Hhook).
    unfold bind, ret.
    destruct (audio_hook_unlock_write (s1, st1)) as [r2 [s2 st2] | [s2 st2]] eqn:Hun;
      [| discriminate].
    intros H. injection H as <- <-.
    apply unlock_write_keeps in Hun. destruct Hun as (Hid2 & Hp2 & Hhook2).
    repeat split; congruence.
  - unfold bind, ret. cbn.
    unfold pthread_spin_unlock, pthread_mutex_unlock, emit, bind, stream_get,
      stream_set, state_set, ret.
    destruct (async s1); cbn; intros H; injection H as -> _ _; discriminate Hr.
Qed.

Lemma hw_params_body_audio_id (params : snd_pcm_hw_params_t)
    (s s' : audio_hook_stream_s) (st st' : state) :
  h_started (hook st) <> 0 ->
  0 <= audio_count st ->
  (r <- audio_hook_lock_write ;;
   if negb (r =? 0) then ret r else
   glc_log GLC_DEBUG "%p: creating/updating configuration for stream %d" ;;
   let (r, format) := hw_format params in
   if r <? 0 then hw_params_err r else
   stream_set (set_flags 0) ;;
   stream_set (fun s => set_flags (Z.lor (flags s) (pcm_fmt_to_glc_fmt format)) s) ;;
   stream <- stream_get ;;
   if negb (Z.land (flags stream) GLC_AUDIO_FORMAT_UNKNOWN =? 0) then
     glc_log GLC_ERROR "%p: unsupported audio format 0x%02x" ;;
     hw_params_err ENOTSUP
   else
   let (r, v) := hw_rate params in
   if r <? 0 then hw_params_err r else
   stream_set (set_rate v) ;;
   let (r, v) := hw_channels params in
   if r <? 0 then hw_params_err r else
   stream_set (set_channels v) ;;
   let (r, period_size) := hw_period_size params in
   if r <? 0 then hw_params_err r else
   let (r, access) := hw_access params in
   if r <? 0 then hw_params_err r else
   if (access =? SND_PCM_ACCESS_RW_INTERLEAVED)
      || (access =? SND_PCM_ACCESS_MMAP_INTERLEAVED) then
     stream_set (fun s => set_flags (Z.lor (flags s) GLC_AUDIO_INTERLEAVED) s) ;;
     hw_params_tail
   else if access =? SND_PCM_ACCESS_MMAP_COMPLEX then
     stream_set (fun s => set_flags (Z.lor (flags s) GLC_AUDIO_INTERLEAVED) s) ;;
     stream_set (set_complex 1) ;;
     hw_params_tail
   else
     glc_log GLC_ERROR "%p: unsupported access mode 0x%02x" ;;
     hw_params_err ENOTSUP) (s, st) = Ret 0 (s', st') ->
  0 < audio_i s' /\ pcm s' = pcm s /\ hook st' = hook st.
Proof.
  intros Hstarted Hcount.
  destruct params as [[rf format] [rr vr] [rc vc] [rp vp] [ra access]].
  unfold hw_params_err, hw_format, hw_rate, hw_channels, hw_period_size, hw_access.
  focus_run. unfold async. cbn.
  repeat (break_if; cbn).
  all: intros H; try discriminate H.
  all: try (injection H as -> _ _;
            match goal with Hneg : (0 <? 0) = true |- _ => discriminate Hneg end).
  all: apply hw_params_tail_audio_id in H; [| assumption | assumption]; exact H.
Qed.

(** C5, as the code has it: on a hook that has been started, a call of
    hw_params that returns success leaves the stream with an identifier
    greater than 0.  (Before start the stream is configured only and keeps
    the identifier 0.) *)
Theorem hw_params_audio_id (st st' : state) (p : Z) (params : snd_pcm_hw_params_t) :
  h_started (hook st) <> 0 ->
  0 <= audio_count st ->
  audio_hook_alsa_hw_params p params st = Ret 0 st' ->
  0 < audio_i (located p st').
Proof.
  intros Hstarted Hcount.
  destruct (registered_find p st) as (i & Hget & Hfind & Hat).
  destruct (registered_rest p st) as (_ & _ & Hst & _ & _ & Hac & _).
  pose proof (located_pcm p st) as Hpcm.
  rewrite <- Hst in Hstarted. rewrite <- Hac in Hcount.
  unfold audio_hook_alsa_hw_params, bind at 1. rewrite Hget.
  unfold on_stream. rewrite Hat.
  match goal with
  | |- context [match ?body (located p st, registered p st) with _ => _ end] =>
      destruct (body (located p st, registered p st)) as [r [s1 st1] | [s1 st1]] eqn:Hbody
  end; [| discriminate].
  intros H. injection H as -> <-.
  destruct (hw_params_body_audio_id _ _ _ _ _ Hstarted Hcount Hbody) as (Hid & Hp & Hhook).
  rewrite located_put; [exact Hid | rewrite Hhook; exact Hfind | congruence].
Qed.


(** * Further properties of the code *)

#[local] Arguments located : simpl never.
#[local] Arguments registered : simpl never.
#[local] Arguments audio_hook_lock_write : simpl never.
#[local] Arguments audio_hook_unlock_write : simpl never.
#[local] Arguments audio_hook_wait_for_thread : simpl never.
#[local] Arguments audio_hook_set_data_size : simpl never.
#[local] Arguments audio_hook_stream_init : simpl never.
#[local] Arguments memcpy : simpl never.
#[local] Arguments load : simpl never.
#[local] Arguments wrap64 : simpl never.
#[local] Arguments new_events : simpl never.

(** ** Steps of the producer path *)

Lemma lock_write_free_eq (s : audio_hook_stream_s) (st : state) :
  write_lock_free s ->
  audio_hook_lock_write (s, st) =
  Ret 0 (lock_taken s, set_trace (ev_lock (pcm s) (write_lock_kind s) :: trace st) st).
Proof.
  unfold write_lock_free, audio_hook_lock_write, lock_taken, write_lock_kind,
    pthread_spin_lock, pthread_mutex_lock, emit, bind, stream_get, stream_set,
    state_set, ret.
  cbn. destruct (async s); cbn; intros ->; reflexivity.
Qed.

Lemma unlock_write_eq (s : audio_hook_stream_s) (st : state) :
  audio_hook_unlock_write (s, st) =
  Ret 0 (lock_released s, set_trace (ev_unlock (pcm s) (write_lock_kind s) :: trace st) st).
Proof.
  unfold audio_hook_unlock_write, lock_released, write_lock_kind,
    pthread_spin_unlock, pthread_mutex_unlock, emit, bind, stream_get, stream_set,
    state_set, ret.
  cbn. destruct (async s); cbn; reflexivity.
Qed.

Lemma wait_for_thread_blocking (s : audio_hook_stream_s) (st : state) :
  async s = false -> 0 < capture_empty s ->
  audio_hook_wait_for_thread (s, st) = Ret 0 (set_capture_empty (capture_empty s - 1) s, st).
Proof.
  intros Hmode Hslot. apply Z.ltb_lt in Hslot.
  unfold audio_hook_wait_for_thread, sem_wait, bind, stream_get, stream_set, state_get, ret.
  cbn. rewrite Hmode. cbn. rewrite Hslot. reflexivity.
Qed.

Lemma wait_for_thread_skip (s : audio_hook_stream_s) (st : state) :
  async s = true -> capture_ready s = 0 -> allow_skip_set st = true ->
  audio_hook_wait_for_thread (s, st) =
  Ret EBUSY (s, set_trace (ev_log GLC_WARNING "dropped audio data, capture thread not ready"
                             :: trace st) st).
Proof.
  intros Hmode Hready Hskip. unfold allow_skip_set in Hskip.
  unfold audio_hook_wait_for_thread, glc_log, emit, bind, stream_get, state_get,
    state_set, ret.
  cbn. rewrite Hmode, Hready. cbn. rewrite Hskip. reflexivity.
Qed.

Lemma async_lock_taken (s : audio_hook_stream_s) : async (lock_taken s) = async s.
Proof. unfold lock_taken. destruct (async s) eqn:E; exact E. Qed.

(** ** The scratch buffer *)

(** X1: audio_hook_set_data_size always returns (it never waits), with
    success or ENOMEM; the payload size is then the one asked for and the
    capacity is the larger of the old capacity and the size: it never
    shrinks.  A size within the capacity is taken without any allocation:
    success, the buffer stays, the allocator and the memory are not
    touched. *)
Theorem set_data_size_capacity (size : Z) (s : audio_hook_stream_s) (st : state) :
  exists r s' st',
    audio_hook_set_data_size size (s, st) = Ret r (s', st') /\
    (r = 0 \/ r = ENOMEM) /\
    capture_size s' = size /\
    capture_data_size s' = Z.max (capture_data_size s) size /\
    capture_size s' <= capture_data_size s' /\
    (size <= capture_data_size s ->
     r = 0 /\ capture_data s' = capture_data s /\ st' = st).
Proof.
  unfold audio_hook_set_data_size, realloc, malloc, bind, stream_get, stream_set,
    state_get, state_set, ret.
  cbn. destruct (size <=? capture_data_size s) eqn:Hfit.
  - apply Z.leb_le in Hfit. do 3 eexists. split; [reflexivity |]. cbn.
    repeat split; try lia; try (left; reflexivity); intros _; repeat split.
  - apply Z.leb_gt in Hfit.
    destruct (capture_data s =? NULL); cbn;
      destruct (allocs st) as [| a rest]; cbn;
      try destruct (a =? NULL) eqn:Ha; cbn; rewrite ?Ha;
      do 3 eexists; (split; [reflexivity |]); cbn;
      (repeat split; try lia; try (intros H; lia); auto).
Qed.

Lemma set_data_size_fits (size : Z) (s : audio_hook_stream_s) (st : state) :
  size <= capture_data_size s ->
  audio_hook_set_data_size size (s, st) = Ret 0 (set_capture_size size s, st).
Proof.
  intros Hfit. apply Z.leb_le in Hfit.
  unfold audio_hook_set_data_size, bind, stream_get, stream_set, ret.
  cbn. rewrite Hfit. reflexivity.
Qed.

(** X2: after a growth that failed with ENOMEM the recorded capacity is
    stale: any later request up to that size is accepted, with success,
    while the stream has no buffer. *)
Theorem set_data_size_after_enomem (size size' : Z) (s s1 : audio_hook_stream_s)
    (st st1 st2 : state) :
  audio_hook_set_data_size size (s, st) = Ret ENOMEM (s1, st1) ->
  size' <= size ->
  audio_hook_set_data_size size' (s1, st2) = Ret 0 (set_capture_size size' s1, st2) /\
  capture_data (set_capture_size size' s1) = NULL.
Proof.
  intros Hfail Hle.
  assert (Hs1 : capture_data_size s1 = size /\ capture_data s1 = NULL).
  { revert Hfail.
    unfold audio_hook_set_data_size, realloc, malloc, bind, stream_get, stream_set,
      state_get, state_set, ret.
    cbn. destruct (size <=? capture_data_size s); [discriminate |].
    destruct (capture_data s =? NULL); cbn;
      destruct (allocs st) as [| a rest]; cbn;
      try (destruct (a =? NULL) eqn:Ha; cbn; rewrite ?Ha);
      intros H; try discriminate H; injection H as <- <-; cbn; split;
      try reflexivity; apply Z.eqb_eq; assumption. }
  destruct Hs1 as [Hcap Hdata].
  split; [apply set_data_size_fits; lia | exact Hdata].
Qed.

(** ** The hand-over to the worker *)

Lemma load_memcpy (dst src n : Z) (m : memory) :
  load (memcpy dst src n m) dst n = load m src n.
Proof.
  unfold load. apply map_ext_in. intros k Hk. apply in_seq in Hk.
  unfold memcpy.
  assert (Hin : (dst <=? dst + Z.of_nat k) && (dst + Z.of_nat k <? dst + n) = true).
  { apply andb_true_intro. split; [apply Z.leb_le | apply Z.ltb_lt]; lia. }
  rewrite Hin. f_equal. lia.
Qed.

Lemma new_events_added (evs : list event) (st st' : state) :
  trace st' = (evs ++ trace st)%list -> new_events st st' = evs.
Proof.
  intros H. unfold new_events. rewrite H, length_app, Nat.add_sub.
  rewrite firstn_app, Nat.sub_diag, firstn_all. cbn. apply app_nil_r.
Qed.

(** One turn of the worker on a stream with a posted slot and a live
    worker writes one AUDIO message to the transport of the packet context:
    the identifier, the stamp, the size and that many bytes of the scratch
    buffer.  It then marks itself ready and, in blocking mode only, frees
    the slot. *)
Lemma thread_turn_emits (s : audio_hook_stream_s) (st : state) :
  0 < capture_full s ->
  capture_running s <> 0 ->
  exists s' st',
    audio_hook_thread_turn (s, st) = Ret true (s', st') /\
    trace st' =
      ev_packet (packet s)
        (GLC_MESSAGE_AUDIO (audio_i s) (capture_time s) (capture_size s)
           (load (mem st) (capture_data s) (capture_size s))) :: trace st /\
    capture_full s' = capture_full s - 1 /\
    capture_empty s' = (if async s then capture_empty s else capture_empty s + 1) /\
    capture_ready s' = 1.
Proof.
  intros Hfull Hrun. apply Z.ltb_lt in Hfull. apply Z.eqb_neq in Hrun.
  unfold audio_hook_thread_turn, ps_packet_message, sem_post, sem_wait, emit, bind,
    stream_get, stream_set, state_get, state_set, ret.
  cbn. rewrite Hfull. cbn. rewrite Hrun. cbn.
  unfold async. cbn. fold (async s).
  destruct (async s); cbn; do 2 eexists; (split; [reflexivity |]); cbn; repeat split.
Qed.

(** X3: the shutdown protocol seen from the worker.  Woken with
    [capture_running] cleared, the turn leaves the loop, posts
    [capture_finished] and writes no message, whatever the scratch buffer
    holds.  With nothing posted the worker waits. *)
Theorem thread_turn_shutdown (s : audio_hook_stream_s) (st : state) :
  capture_running s = 0 ->
  (0 < capture_full s ->
   audio_hook_thread_turn (s, st) =
   Ret false (set_capture_finished (capture_finished s + 1)
                (set_capture_ready 0 (set_capture_full (capture_full s - 1) s)), st)) /\
  (capture_full s <= 0 -> audio_hook_thread_turn (s, st) = Blocked (s, st)).
Proof.
  intros Hrun. apply Z.eqb_eq in Hrun.
  unfold audio_hook_thread_turn, sem_post, sem_wait, block, bind, stream_get,
    stream_set, ret.
  cbn. split; intros Hfull.
  - apply Z.ltb_lt in Hfull. rewrite Hfull. cbn. rewrite Hrun. reflexivity.
  - apply Z.ltb_ge in Hfull. rewrite Hfull. reflexivity.
Qed.

Lemma stream_at_put (i : nat) (s : audio_hook_stream_s) (st : state) :
  (i < List.length (h_stream (hook st)))%nat -> stream_at i (hook (put_stream i s st)) = s.
Proof. intros Hlt. unfold stream_at, put_stream. cbn. apply nth_list_put. exact Hlt. Qed.

(** The state writei ends in on its successful path without growth. *)
Lemma writei_hands_over_state (st : state) (p buffer size : Z) (i : nat) :
  capturing st = true ->
  initialized (located p st) <> 0 ->
  async (located p st) = false ->
  write_mutex (located p st) = 0 ->
  0 < capture_empty (located p st) ->
  wrap64 (snd_pcm_frames_to_bytes p size) <= capture_data_size (located p st) ->
  stream_find p (h_stream (hook st)) = Some i ->
  let s := located p st in
  let n := wrap64 (snd_pcm_frames_to_bytes p size) in
  audio_hook_alsa_i p buffer size st =
  Ret 0
    (put_stream i
       (set_write_mutex 0
          (set_capture_full (capture_full s + 1)
             (set_capture_time (clock st)
                (set_capture_size n
                   (set_capture_empty (capture_empty s - 1) (set_write_mutex 1 s))))))
       (set_trace (ev_unlock p mutex :: ev_lock p mutex :: trace st)
          (set_mem (memcpy (capture_data s) buffer n (mem st)) st))).
Proof.
  intros Hcap Hinit Hmode Hfree Hslot Hfit Hi s n.
  destruct (registered_find p st) as (i' & Hget & Hfind & Hat).
  rewrite (registered_known p st Hinit) in Hget, Hfind, Hat.
  assert (i' = i) by congruence. subst i'.
  pose proof (located_pcm p st) as Hpcm.
  apply Z.eqb_neq in Hinit.
  unfold audio_hook_alsa_i, bind at 1, state_get at 1. cbn.
  rewrite Hcap. cbn. unfold bind at 1. rewrite Hget.
  unfold on_stream. rewrite Hat.
  fold s. fold n. fold s in Hinit, Hmode, Hfree, Hslot, Hfit, Hpcm.
  unfold bind, stream_get, stream_set, glc_state_time, do_memcpy, sem_post, state_get,
    state_set, ret.
  cbn. rewrite Hinit.
  rewrite lock_write_free_eq by (unfold write_lock_free; rewrite Hmode; exact Hfree).
  cbn. unfold lock_taken. rewrite Hmode.
  rewrite wait_for_thread_blocking by (cbn; assumption).
  cbn. rewrite set_data_size_fits by (cbn; assumption).
  cbn. rewrite unlock_write_eq. cbn.
  unfold lock_released, write_lock_kind, async. cbn. fold (async s). rewrite Hmode, Hpcm.
  destruct st; reflexivity.
Qed.

(** X4: writei on a capturing hook, for an initialized stream in blocking
    mode whose mutex is free, whose slot is empty and whose scratch buffer
    is allocated and holds the payload: the call returns success with the
    mutex released,
    takes the slot ([capture_empty] down by one), posts [capture_full] once,
    stamps the payload with the clock and leaves in the scratch buffer the
    bytes of the caller's buffer.  It writes nothing downstream itself. *)
Theorem writei_hands_over (st : state) (p buffer size : Z) :
  capturing st = true ->
  initialized (located p st) <> 0 ->
  async (located p st) = false ->
  write_mutex (located p st) = 0 ->
  0 < capture_empty (located p st) ->
  wrap64 (snd_pcm_frames_to_bytes p size) <= capture_data_size (located p st) ->
  capture_data (located p st) <> NULL ->
  exists st',
    audio_hook_alsa_i p buffer size st = Ret 0 st' /\
    capture_full (located p st') = capture_full (located p st) + 1 /\
    capture_empty (located p st') = capture_empty (located p st) - 1 /\
    capture_size (located p st') = wrap64 (snd_pcm_frames_to_bytes p size) /\
    capture_time (located p st') = clock st /\
    write_mutex (located p st') = 0 /\
    load (mem st') (capture_data (located p st')) (capture_size (located p st')) =
      load (mem st) buffer (wrap64 (snd_pcm_frames_to_bytes p size)) /\
    packets (trace st') = packets (trace st).
Proof.
  intros Hcap Hinit Hmode Hfree Hslot Hfit Hdata.
  destruct (registered_find p st) as (i & _ & Hfind & _).
  rewrite (registered_known p st Hinit) in Hfind.
  pose proof (located_pcm p st) as Hpcm.
  eexists. split.
  - apply (writei_hands_over_state st p buffer size i); assumption.
  - rewrite located_put by (cbn; assumption).
    cbn. repeat split. apply load_memcpy.
Qed.

(** X5: a submission ends in one message.  After such a writei (scratch
    buffer allocated and large enough), the turn of the worker of that
    stream (a live worker, no slot posted before) writes
    one AUDIO message: the identifier of the stream, the clock at the call,
    the size and the bytes of the caller's buffer; no other message is
    written from the call to the end of the turn. *)
Theorem writei_packet (st : state) (p buffer size : Z) (i : nat) :
  capturing st = true ->
  initialized (located p st) <> 0 ->
  async (located p st) = false ->
  write_mutex (located p st) = 0 ->
  0 < capture_empty (located p st) ->
  wrap64 (snd_pcm_frames_to_bytes p size) <= capture_data_size (located p st) ->
  capture_data (located p st) <> NULL ->
  capture_running (located p st) <> 0 ->
  capture_full (located p st) = 0 ->
  stream_find p (h_stream (hook st)) = Some i ->
  exists st' st'',
    audio_hook_alsa_i p buffer size st = Ret 0 st' /\
    on_stream i audio_hook_thread_turn st' = Ret true st'' /\
    packets (trace st'') =
      ev_packet (packet (located p st))
        (GLC_MESSAGE_AUDIO (audio_i (located p st)) (clock st)
           (wrap64 (snd_pcm_frames_to_bytes p size))
           (load (mem st) buffer (wrap64 (snd_pcm_frames_to_bytes p size))))
      :: packets (trace st).
Proof.
  intros Hcap Hinit Hmode Hfree Hslot Hfit Hdata Hrun Hfull Hi.
  pose proof (writei_hands_over_state st p buffer size i
                Hcap Hinit Hmode Hfree Hslot Hfit Hi) as Hcall.
  cbv zeta in Hcall.
  destruct (stream_find_some _ _ _ Hi) as [Hlt _].
  set (s := located p st) in *.
  set (n := wrap64 (snd_pcm_frames_to_bytes p size)) in *.
  match type of Hcall with
  | _ = Ret 0 (put_stream _ ?sF ?stF) =>
      destruct (thread_turn_emits sF (put_stream i sF stF))
        as (s2 & st2 & Hturn & Htrace & _);
        [cbn; lia | cbn; exact Hrun |];
      exists (put_stream i sF stF), (put_stream i s2 st2)
  end.
  split; [exact Hcall |].
  unfold on_stream. rewrite stream_at_put by (cbn; exact Hlt).
  rewrite Hturn. split; [reflexivity |].
  cbn in Htrace. rewrite load_memcpy in Htrace.
  cbn. rewrite Htrace. reflexivity.
Qed.

(** X6: the asynchronous drop.  writei on a capturing hook with allow-skip,
    for an initialized ASYNC stream whose spinlock is free and whose worker
    is not ready: the call does not wait, it returns EBUSY, logs the drop,
    releases the spinlock and hands nothing over. *)
Theorem writei_async_drop (st : state) (p buffer size : Z) :
  capturing st = true ->
  allow_skip_set st = true ->
  initialized (located p st) <> 0 ->
  async (located p st) = true ->
  write_spinlock (located p st) = 0 ->
  capture_ready (located p st) = 0 ->
  exists st',
    audio_hook_alsa_i p buffer size st = Ret EBUSY st' /\
    emits_nothing p st st' /\
    write_spinlock (located p st') = 0 /\
    new_events st st' =
      [ev_unlock p spinlock;
       ev_log GLC_WARNING "dropped audio data, capture thread not ready";
       ev_lock p spinlock].
Proof.
  intros Hcap Hskip Hinit Hmode Hfree Hready.
  destruct (registered_find p st) as (i & Hget & Hfind & Hat).
  rewrite (registered_known p st Hinit) in Hget, Hfind, Hat.
  pose proof (located_pcm p st) as Hpcm.
  apply Z.eqb_neq in Hinit.
  unfold audio_hook_alsa_i, bind at 1, state_get at 1. cbn.
  rewrite Hcap. cbn. unfold bind at 1. rewrite Hget.
  unfold on_stream. rewrite Hat.
  set (s := located p st) in *.
  unfold bind, stream_get, ret.
  cbn. rewrite Hinit.
  rewrite lock_write_free_eq by (unfold write_lock_free; rewrite Hmode; exact Hfree).
  cbn. unfold lock_taken, write_lock_kind. rewrite Hmode.
  rewrite wait_for_thread_skip by (cbn; assumption).
  cbn. rewrite unlock_write_eq. cbn.
  unfold lock_released, write_lock_kind, async. cbn. fold (async s). rewrite Hmode.
  eexists. split; [reflexivity |].
  unfold emits_nothing. rewrite located_put by (cbn; assumption).
  cbn. rewrite Hpcm. repeat split.
  apply (new_events_added
           [ev_unlock p spinlock;
            ev_log GLC_WARNING "dropped audio data, capture thread not ready";
            ev_lock p spinlock]).
  reflexivity.
Qed.

(** X7: the same call without allow-skip does not return: the producer keeps
    yielding until the worker sets [capture_ready], with the spinlock held. *)
Theorem writei_async_waits (st : state) (p buffer size : Z) :
  capturing st = true ->
  allow_skip_set st = false ->
  initialized (located p st) <> 0 ->
  async (located p st) = true ->
  write_spinlock (located p st) = 0 ->
  capture_ready (located p st) = 0 ->
  exists st',
    audio_hook_alsa_i p buffer size st = Blocked st' /\
    write_spinlock (located p st') = 1.
Proof.
  intros Hcap Hskip Hinit Hmode Hfree Hready.
  destruct (registered_find p st) as (i & Hget & Hfind & Hat).
  rewrite (registered_known p st Hinit) in Hget, Hfind, Hat.
  pose proof (located_pcm p st) as Hpcm.
  apply Z.eqb_neq in Hinit.
  unfold audio_hook_alsa_i, bind at 1, state_get at 1. cbn.
  rewrite Hcap. cbn. unfold bind at 1. rewrite Hget.
  unfold on_stream. rewrite Hat.
  set (s := located p st) in *.
  unfold bind, stream_get, ret.
  cbn. rewrite Hinit.
  rewrite lock_write_free_eq by (unfold write_lock_free; rewrite Hmode; exact Hfree).
  cbn. unfold lock_taken, write_lock_kind. rewrite Hmode.
  unfold allow_skip_set in Hskip.
  unfold audio_hook_wait_for_thread, block, bind, stream_get, state_get.
  cbn. unfold async. cbn. fold (async s). rewrite Hmode, Hready. cbn. rewrite Hskip. cbn.
  eexists. split; [reflexivity |].
  rewrite located_put by (cbn; assumption). reflexivity.
Qed.

(** ** The registry of streams *)

Lemma stream_find_none (p : Z) (l : list audio_hook_stream_s) :
  stream_find p l = None -> ~ In p (map pcm l).
Proof.
  induction l as [| s l IH]; simpl; intros Hfind.
  - intros [].
  - destruct (pcm s =? p) eqn:Hs; [discriminate |].
    destruct (stream_find p l); [discriminate |].
    apply Z.eqb_neq in Hs. intros [H | H]; [contradiction | exact (IH eq_refl H)].
Qed.

(** X8: lookup after lookup.  Once audio_hook_get_stream_alsa has run for a
    handle, running it again yields the same stream and changes nothing;
    the stream it yields carries the handle; and the streams located for the
    other handles are the ones located before. *)
Theorem get_stream_alsa_again (p : Z) (st st1 : state) (i : nat) :
  audio_hook_get_stream_alsa p st = Ret i st1 ->
  audio_hook_get_stream_alsa p st1 = Ret i st1 /\
  pcm (stream_at i (hook st1)) = p /\
  forall q, q <> p -> located q st1 = located q st.
Proof.
  intros Hget.
  destruct (registered_find p st) as (i0 & Hget0 & Hfind & Hat).
  rewrite Hget0 in Hget. injection Hget as -> <-.
  split; [| split].
  - unfold audio_hook_get_stream_alsa, bind, state_get, ret. cbn. rewrite Hfind. reflexivity.
  - rewrite Hat. apply located_pcm.
  - intros q Hq. unfold located, registered.
    destruct (stream_find p (h_stream (hook st))) eqn:Hp; [reflexivity |].
    cbn. assert (Hne : (p =? q) = false) by (apply Z.eqb_neq; congruence).
    rewrite Hne. destruct (stream_find q (h_stream (hook st))); reflexivity.
Qed.

(** X9: the registry never holds two streams for one handle: if the handles
    of the list are distinct before audio_hook_get_stream_alsa, they are
    distinct after it. *)
Theorem get_stream_alsa_unique (p : Z) (st st1 : state) (i : nat) :
  unique_handles st ->
  audio_hook_get_stream_alsa p st = Ret i st1 ->
  unique_handles st1.
Proof.
  intros Huniq Hget.
  destruct (registered_find p st) as (i0 & Hget0 & _).
  rewrite Hget0 in Hget. injection Hget as _ <-.
  unfold unique_handles, registered in *.
  destruct (stream_find p (h_stream (hook st))) eqn:Hp; [exact Huniq |].
  cbn. constructor; [apply stream_find_none; exact Hp | exact Huniq].
Qed.

(** ** The flags of the hook *)

Lemma land_land_const (f c k : Z) : Z.land (Z.land f c) k = Z.land f (Z.land c k).
Proof. symmetry. apply Z.land_assoc. Qed.

(** X10: stop clears the capturing flag and nothing else of the hook: the
    allow-skip flag, the transport, the started mark and the streams stay;
    after it a writei is a no-op. *)
Theorem stop_clears_capturing (st : state) :
  exists st',
    audio_hook_stop st = Ret 0 st' /\
    capturing st' = false /\
    allow_skip_set st' = allow_skip_set st /\
    h_to (hook st') = h_to (hook st) /\
    h_started (hook st') = h_started (hook st) /\
    h_stream (hook st') = h_stream (hook st) /\
    forall p buffer size, audio_hook_alsa_i p buffer size st' = Ret 0 st'.
Proof.
  assert (Hoff : forall f, Z.land (Z.land f (wrap32 (Z.lnot AUDIO_HOOK_CAPTURING)))
                             AUDIO_HOOK_CAPTURING = 0).
  { intros f. rewrite land_land_const.
    change (Z.land (wrap32 (Z.lnot AUDIO_HOOK_CAPTURING)) AUDIO_HOOK_CAPTURING) with 0.
    apply Z.land_0_r. }
  assert (Hskip : forall f, Z.land (Z.land f (wrap32 (Z.lnot AUDIO_HOOK_CAPTURING)))
                              AUDIO_HOOK_ALLOW_SKIP = Z.land f AUDIO_HOOK_ALLOW_SKIP).
  { intros f. rewrite land_land_const. reflexivity. }
  unfold audio_hook_stop, glc_log, emit, bind, state_get, state_set, ret. cbn.
  destruct (capturing st); cbn; eexists; (split; [reflexivity |]);
    unfold capturing, allow_skip_set; cbn; rewrite Hoff, Hskip;
    (repeat split);
    intros p buffer size;
    unfold audio_hook_alsa_i, bind, state_get, capturing; cbn; rewrite Hoff; reflexivity.
Qed.

(** X11: allow_skip sets the allow-skip flag for a non-zero argument and
    clears it for zero; the capturing flag, the transport and the streams
    are not touched. *)
Theorem allow_skip_toggles (st : state) (allow_skip : Z) :
  exists st',
    audio_hook_allow_skip allow_skip st = Ret 0 st' /\
    allow_skip_set st' = negb (allow_skip =? 0) /\
    capturing st' = capturing st /\
    h_to (hook st') = h_to (hook st) /\
    h_stream (hook st') = h_stream (hook st).
Proof.
  unfold audio_hook_allow_skip, bind, state_get, state_set, ret. cbn.
  destruct (allow_skip =? 0); cbn; eexists; (split; [reflexivity |]);
    unfold allow_skip_set, capturing; cbn.
  - rewrite !land_land_const.
    change (Z.land (wrap32 (Z.lnot AUDIO_HOOK_ALLOW_SKIP)) AUDIO_HOOK_ALLOW_SKIP) with 0.
    change (Z.land (wrap32 (Z.lnot AUDIO_HOOK_ALLOW_SKIP)) AUDIO_HOOK_CAPTURING) with 1.
    rewrite Z.land_0_r. repeat split.
  - rewrite !Z.land_lor_distr_l.
    change (Z.land AUDIO_HOOK_ALLOW_SKIP AUDIO_HOOK_ALLOW_SKIP) with 2.
    change (Z.land AUDIO_HOOK_ALLOW_SKIP AUDIO_HOOK_CAPTURING) with 0.
    rewrite Z.lor_0_r. repeat split.
    destruct (Z.lor (Z.land (h_flags (hook st)) AUDIO_HOOK_ALLOW_SKIP) 2 =? 0) eqn:E;
      [| reflexivity].
    apply Z.eqb_eq, Z.lor_eq_0_iff in E. destruct E as [_ E]. discriminate E.
Qed.

(** ** hw_params *)

#[local] Arguments hw_params_tail : simpl never.

Lemma lock_write_cases (s : audio_hook_stream_s) (st : state) :
  audio_hook_lock_write (s, st) = Blocked (s, st) \/
  (write_lock_free s /\
   audio_hook_lock_write (s, st) =
   Ret 0 (lock_taken s, set_trace (ev_lock (pcm s) (write_lock_kind s) :: trace st) st)).
Proof.
  unfold write_lock_free, audio_hook_lock_write, lock_taken, write_lock_kind,
    pthread_spin_lock, pthread_mutex_lock, emit, block, bind, stream_get, stream_set,
    state_set, ret.
  cbn. destruct (async s); cbn.
  - destruct (write_spinlock s =? 0) eqn:E; [right | left; reflexivity].
    apply Z.eqb_eq in E. split; [exact E | reflexivity].
  - destruct (write_mutex s =? 0) eqn:E; [right | left; reflexivity].
    apply Z.eqb_eq in E. split; [exact E | reflexivity].
Qed.

Lemma lock_released_free (s : audio_hook_stream_s) : write_lock_free (lock_released s).
Proof.
  unfold write_lock_free, lock_released. destruct (async s) eqn:E.
  - replace (async (set_write_spinlock 0 s)) with true by (symmetry; exact E). reflexivity.
  - replace (async (set_write_mutex 0 s)) with false by (symmetry; exact E). reflexivity.
Qed.

Lemma lock_released_fields (s : audio_hook_stream_s) :
  pcm (lock_released s) = pcm s /\ flags (lock_released s) = flags s /\
  fmt (lock_released s) = fmt s /\ initialized (lock_released s) = initialized s /\
  rate (lock_released s) = rate s /\ channels (lock_released s) = channels s /\
  audio_i (lock_released s) = audio_i s /\
  capture_full (lock_released s) = capture_full s.
Proof. unfold lock_released. destruct (async s); repeat split. Qed.

Lemma lock_taken_pcm (s : audio_hook_stream_s) : pcm (lock_taken s) = pcm s.
Proof. unfold lock_taken. destruct (async s); reflexivity. Qed.

Lemma stream_init_frame (s s' : audio_hook_stream_s) (st st' : state) (r : Z) :
  audio_hook_stream_init (s, st) = Ret r (s', st') ->
  pcm s' = pcm s /\ hook st' = hook st /\ flags s' = flags s /\ fmt s' = fmt s /\
  mode s' = mode s /\ rate s' = rate s /\ channels s' = channels s /\
  mem st' = mem st.
Proof.
  unfold audio_hook_stream_init, glc_state_audio_new, ps_packet_init, ps_packet_destroy,
    ps_packet_message, sem_post, sem_wait, glc_log, emit, block, bind, stream_get,
    stream_set, state_get, state_set, ret.
  cbn. repeat (break_if; cbn); intros H; try discriminate H;
    injection H as _ <- <-; cbn; repeat split.
Qed.

(** The end of hw_params, from the second debug line on: it returns with the
    lock released; on success the format is marked valid and the flags stay. *)
Lemma hw_params_tail_ret (s s' : audio_hook_stream_s) (st st' : state) (r : Z) :
  hw_params_tail (s, st) = Ret r (s', st') ->
  pcm s' = pcm s /\ hook st' = hook st /\ write_lock_free s' /\
  flags s' = flags s /\ rate s' = rate s /\ channels s' = channels s /\
  (r = 0 -> fmt s' = 1).
Proof.
  unfold hw_params_tail, hw_params_err, glc_log, emit.
  unfold bind, state_get, state_set, stream_set, ret. cbn.
  destruct (h_started (hook st) =? 0); cbn.
  - rewrite unlock_write_eq. intros H. injection H as <- <- <-.
    destruct (lock_released_fields (set_fmt 1 s)) as (H1 & H2 & H3 & _ & H5 & H6 & _).
    cbn in H1, H2, H3, H5, H6. cbn.
    repeat split; try apply lock_released_free; try (intros _); congruence.
  - destruct (audio_hook_stream_init _) as [r1 [s1 st1] | [s1 st1]] eqn:Hinit; [| discriminate].
    apply stream_init_frame in Hinit. cbn in Hinit.
    destruct Hinit as (I1 & I2 & I3 & I4 & _ & I6 & I7 & _).
    destruct (r1 =? 0) eqn:Hr1; cbn; rewrite unlock_write_eq;
      intros H; injection H as <- <- <-;
      destruct (lock_released_fields s1) as (H1 & H2 & H3 & _ & H5 & H6 & _);
      cbn; (repeat split; try apply lock_released_free; try congruence);
      intros Hz; first [subst; discriminate Hr1 | congruence].
Qed.

Lemma lor_land_same (x f : Z) : Z.land (Z.lor x f) f = f.
Proof.
  apply Z.bits_inj'. intros n _. rewrite Z.land_spec, Z.lor_spec.
  destruct (Z.testbit x n), (Z.testbit f n); reflexivity.
Qed.

(** X12: whenever hw_params returns, with success or with an error, the write
    lock it took is released.  When it returns success the format is marked
    valid, the flags have INTERLEAVED (both for the interleaved and for the
    complex access: no stream is ever configured as planar), and the rate
    and the channels are the ones of the parameters. *)
Theorem hw_params_returns (st st' : state) (p r : Z) (params : snd_pcm_hw_params_t) :
  audio_hook_alsa_hw_params p params st = Ret r st' ->
  write_lock_free (located p st') /\
  (r = 0 ->
   fmt (located p st') = 1 /\
   Z.land (flags (located p st')) GLC_AUDIO_INTERLEAVED = GLC_AUDIO_INTERLEAVED /\
   rate (located p st') = snd (hw_rate params) /\
   channels (located p st') = snd (hw_channels params)).
Proof.
  destruct (registered_find p st) as (i & Hget & Hfind & Hat).
  pose proof (located_pcm p st) as Hpcm.
  destruct params as [[rf format] [rr vr] [rc vc] [rp vp] [ra access]].
  unfold audio_hook_alsa_hw_params, bind at 1. rewrite Hget.
  unfold on_stream. rewrite Hat.
  set (s := located p st) in *.
  unfold bind at 1.
  destruct (lock_write_cases s (registered p st)) as [Hb | [Hfree Hl]];
    [rewrite Hb; discriminate | rewrite Hl].
  cbn.
  unfold hw_params_err, hw_format, hw_rate, hw_channels, hw_period_size, hw_access,
    glc_log, emit, bind, stream_get, stream_set, state_get, state_set, ret.
  cbn.
  repeat (break_if; cbn; rewrite ?unlock_write_eq; cbn).
  all: try (intros H; injection H as <- <-;
            rewrite located_put
              by (cbn; first [exact Hfind
                             | rewrite (proj1 (lock_released_fields _)); cbn;
                               rewrite lock_taken_pcm; exact Hpcm]);
            split; [apply lock_released_free |];
            intros Hz; exfalso;
            first [discriminate Hz
                  | rewrite Hz in *;
                    match goal with Hneg : (0 <? 0) = true |- _ => discriminate Hneg end]).
  all: match goal with
       | |- context [hw_params_tail ?f] =>
           destruct (hw_params_tail f) as [r1 [s1 st1] | [s1 st1]] eqn:Ht; [| discriminate]
       end;
       intros H; injection H as <- <-;
       apply hw_params_tail_ret in Ht; cbn in Ht;
       destruct Ht as (T1 & T2 & T3 & T4 & T5 & T6 & T7);
       rewrite lock_taken_pcm in T1;
       rewrite located_put by (first [rewrite T2; exact Hfind | congruence]);
       (split; [exact T3 |]);
       intros Hz; rewrite T4, T5, T6;
       (repeat split; [apply T7; exact Hz | apply lor_land_same]).
Qed.


(** ** Stream initialization *)

(** X14: audio_hook_stream_init on a stream with a valid format and no worker
    to replace: it returns success, binds the packet context to the
    transport of the hook, writes one AUDIO_FORMAT message there with the
    identifier, flags, rate and channels of the stream, then starts the
    worker and marks the stream initialized and running.  A stream that has an
    identifier keeps it; one that has none gets the next of the registry. *)
Theorem stream_init_announces (s : audio_hook_stream_s) (st : state) :
  fmt s <> 0 ->
  capture_running s = 0 ->
  exists s' st',
    audio_hook_stream_init (s, st) = Ret 0 (s', st') /\
    initialized s' = 1 /\ capture_running s' = 1 /\
    packet s' = h_to (hook st) /\
    audio_i s' = (if audio_i s <? 1 then audio_count st + 1 else audio_i s) /\
    packets (trace st') =
      ev_packet (h_to (hook st))
        (GLC_MESSAGE_AUDIO_FORMAT (audio_i s') (flags s) (rate s) (channels s))
      :: packets (trace st) /\
    exists older,
      trace st' =
        ev_thread_create (pcm s)
        :: ev_packet (h_to (hook st))
             (GLC_MESSAGE_AUDIO_FORMAT (audio_i s') (flags s) (rate s) (channels s))
        :: older.
Proof.
  intros Hfmt Hrun. apply Z.eqb_neq in Hfmt. apply Z.eqb_eq in Hrun.
  unfold audio_hook_stream_init, glc_state_audio_new, ps_packet_init, ps_packet_destroy,
    ps_packet_message, glc_log, emit, bind, stream_get, stream_set, state_get,
    state_set, ret.
  cbn. rewrite Hfmt. cbn.
  destruct (audio_i s <? 1); cbn;
    destruct (initialized s =? 0); cbn; rewrite Hrun; cbn;
    do 2 eexists; (split; [reflexivity |]); cbn; (repeat split);
    eexists; reflexivity.
Qed.

Lemma init_pending_without_format (i : nat) (st : state) :
  fmt (stream_at i (hook st)) = 0 -> init_pending i st = Ret tt st.
Proof.
  intros Hfmt. apply Z.eqb_eq in Hfmt.
  unfold init_pending, on_stream, bind, stream_get, ret. cbn.
  rewrite Hfmt. cbn. rewrite put_stream_same. reflexivity.
Qed.

Lemma for_each_without_format (l : list nat) (st : state) :
  (forall i, fmt (stream_at i (hook st)) = 0) ->
  for_each l init_pending st = Ret tt st.
Proof.
  intros Hall. induction l as [| i l IH]; [reflexivity |].
  simpl. unfold bind. rewrite init_pending_without_format by apply Hall. exact IH.
Qed.

(** X15: start passes over streams without a format (seen by open only, or
    closed).  On a hook with a transport, not started, none of whose streams
    has a format, start returns success, marks the hook started and
    capturing, and leaves every stream as it was: no identifier is taken, no
    worker is started, nothing is written downstream. *)
Theorem start_skips_unconfigured (st : state) :
  h_to (hook st) <> NULL ->
  h_started (hook st) = 0 ->
  Forall (fun s => fmt s = 0) (h_stream (hook st)) ->
  exists st',
    audio_hook_start st = Ret 0 st' /\
    h_stream (hook st') = h_stream (hook st) /\
    h_started (hook st') = 1 /\
    capturing st' = true /\
    audio_count st' = audio_count st /\
    new_events st st' = [ev_log (if capturing st then GLC_WARNING else GLC_INFORMATION)
                           (if capturing st then "capturing is already active"
                            else "starting capturing")].
Proof.
  intros Hto Hfirst Hnone.
  assert (Hall : forall i, fmt (stream_at i (hook st)) = 0).
  { intros i. unfold stream_at.
    destruct (Nat.lt_ge_cases i (List.length (h_stream (hook st)))) as [Hlt | Hge].
    - rewrite Forall_forall in Hnone. apply Hnone. apply nth_In. exact Hlt.
    - rewrite nth_overflow by exact Hge. reflexivity. }
  apply Z.eqb_neq in Hto. apply Z.eqb_eq in Hfirst.
  unfold audio_hook_start, bind at 1, state_get at 1. cbn.
  rewrite Hto, Hfirst.
  unfold audio_hook_init_streams, bind at 1 2, state_get at 1. cbn.
  rewrite Hto, Hfirst. cbn. unfold bind at 1.
  rewrite for_each_without_format by exact Hall.
  unfold glc_log, emit, bind, state_get, state_set, ret. cbn.
  unfold capturing at 1. cbn. fold (capturing st).
  destruct (capturing st); cbn; eexists; (split; [reflexivity |]); cbn;
    (repeat split; try (unfold capturing; cbn; apply negb_true_iff, Z.eqb_neq, capturing_set));
    match goal with
    | |- new_events _ _ = [?e] => apply (new_events_added [e]); reflexivity
    end.
Qed.

(** X16: close withdraws the format and nothing else: the call returns
    success, the stream is no longer configured ([fmt] is 0), while its
    worker, its identifier and its initialized mark stay and nothing is
    handed over. *)
Theorem close_keeps_worker (st : state) (p : Z) :
  exists st',
    audio_hook_alsa_close p st = Ret 0 st' /\
    fmt (located p st') = 0 /\
    initialized (located p st') = initialized (located p st) /\
    capture_running (located p st') = capture_running (located p st) /\
    audio_i (located p st') = audio_i (located p st) /\
    emits_nothing p st st'.
Proof.
  destruct (registered_find p st) as (i & Hget & Hfind & Hat).
  destruct (registered_rest p st) as (_ & _ & _ & Hmem & _ & _ & Htrace).
  pose proof (located_pcm p st) as Hpcm.
  unfold audio_hook_alsa_close, bind at 1. rewrite Hget.
  unfold on_stream. rewrite Hat.
  unfold glc_log, emit, bind, stream_set, state_set, ret. cbn.
  eexists. split; [reflexivity |].
  unfold emits_nothing. rewrite located_put by (cbn; assumption).
  cbn. rewrite Htrace, Hmem. repeat split.
Qed.

(** ** destroy *)

Lemma freed_streams_app (a b : list event) :
  freed_streams (a ++ b) = (freed_streams b ++ freed_streams a)%list.
Proof. unfold freed_streams. rewrite flat_map_app, rev_app_distr. reflexivity. Qed.

Lemma destroy_streams_frees (l : list audio_hook_stream_s) (st : state) :
  no_worker l ->
  exists st',
    destroy_streams l st = Ret tt st' /\
    h_stream (hook st') = match l with [] => h_stream (hook st) | _ :: _ => [] end /\
    freed_streams (trace st') = (freed_streams (trace st) ++ map pcm l)%list /\
    packets (trace st') = packets (trace st) /\
    mem st' = mem st.
Proof.
  revert st. induction l as [| del next IH]; intros st Hidle.
  - exists st. cbn. rewrite app_nil_r. repeat split.
  - inversion Hidle as [| x xs Hdel Hnext]; subst.
    apply Z.eqb_eq in Hdel.
    cbn [destroy_streams].
    unfold bind at 1, state_get at 1. cbn [get_state process_state].
    unfold bind at 1, state_set at 1. cbn [map_state process_state].
    unfold bind at 1, on_detached, destroy_stream, ps_packet_destroy, emit, bind,
      stream_get, state_set, ret.
    cbn. rewrite Hdel. cbn.
    destruct (capture_data del =? NULL); cbn; destruct (initialized del =? 0); cbn;
      match goal with
      | |- context [destroy_streams next ?st1] =>
          destruct (IH st1 Hnext) as (st' & Hrun & Hlist & Hfreed & Hpk & Hmem)
      end;
      exists st'; rewrite Hrun; (split; [reflexivity |]);
      rewrite Hfreed, Hpk, Hmem; cbn in Hlist |- *;
      (split; [destruct next; exact Hlist |]);
      unfold freed_streams; cbn; rewrite <- ?app_assoc; repeat split.
Qed.

(** X17: destroy of a hook none of whose streams has a running worker returns
    success, unlinks every stream, frees each of them once, in the order of
    the list, and then the hook; it writes nothing downstream. *)
Theorem destroy_frees_all (st : state) (audio_hook : Z) :
  audio_hook <> NULL ->
  no_worker (h_stream (hook st)) ->
  exists st',
    audio_hook_destroy audio_hook st = Ret 0 st' /\
    h_stream (hook st') = [] /\
    freed_streams (trace st') =
      (freed_streams (trace st) ++ map pcm (h_stream (hook st)))%list /\
    hd_error (trace st') = Some ev_free_hook /\
    packets (trace st') = packets (trace st).
Proof.
  intros Hptr Hidle. apply Z.eqb_neq in Hptr.
  destruct (destroy_streams_frees (h_stream (hook st)) st Hidle)
    as (st1 & Hrun & Hlist & Hfreed & Hpk & _).
  unfold audio_hook_destroy. rewrite Hptr.
  unfold bind at 1, state_get at 1. cbn [get_state process_state].
  unfold bind at 1. rewrite Hrun.
  unfold emit, bind, state_set, ret. cbn.
  eexists. split; [reflexivity |]. cbn.
  repeat split.
  - rewrite Hlist. destruct (h_stream (hook st)); reflexivity.
  - unfold freed_streams in *. cbn. exact Hfreed.
  - exact Hpk.
Qed.

(** X18: a stream whose worker is marked running and has not posted
    [capture_finished] stops destroy: on the stream, already unlinked, the
    call clears [capture_running], posts [capture_full] to wake the worker
    and waits for it; nothing has been freed at that point. *)
Theorem destroy_waits_for_worker (st : state) (audio_hook : Z)
    (del : audio_hook_stream_s) (next : list audio_hook_stream_s) :
  audio_hook <> NULL ->
  h_stream (hook st) = del :: next ->
  capture_running del <> 0 ->
  capture_finished del <= 0 ->
  audio_hook_destroy audio_hook st =
    Blocked (set_hook (set_h_stream next (hook st)) st) /\
  destroy_stream (del, set_hook (set_h_stream next (hook st)) st) =
    Blocked (set_capture_full (capture_full del + 1) (set_capture_running 0 del),
             set_hook (set_h_stream next (hook st)) st).
Proof.
  intros Hptr Hlist Hrun Hfin.
  apply Z.eqb_neq in Hptr, Hrun. apply Z.ltb_ge in Hfin.
  split.
  - unfold audio_hook_destroy. rewrite Hptr.
    unfold bind at 1, state_get at 1. cbn [get_state process_state].
    rewrite Hlist. cbn [destroy_streams].
    unfold on_detached, destroy_stream, sem_post, sem_wait, block, bind, stream_get,
      stream_set, state_get, state_set, ret.
    cbn. rewrite Hrun. cbn. rewrite Hfin. reflexivity.
  - unfold destroy_stream, sem_post, sem_wait, block, bind, stream_get, stream_set, ret.
    cbn. rewrite Hrun. cbn. rewrite Hfin. reflexivity.
Qed.

(** ** The mmap entry points *)

(** X19: mmap_begin on a capturing hook, for an initialized stream whose
    write lock is free, records the areas, the offset and the frames in the
    stream and returns success with the lock released; it copies nothing
    and hands nothing over. *)
Theorem mmap_begin_records (st : state) (p : Z) (areas : list snd_pcm_channel_area_t)
    (offset frames : Z) :
  capturing st = true ->
  initialized (located p st) <> 0 ->
  write_lock_free (located p st) ->
  exists st',
    audio_hook_alsa_mmap_begin p areas offset frames st = Ret 0 st' /\
    mmap_areas (located p st') = Some areas /\
    recorded_offset (located p st') = offset /\
    recorded_frames (located p st') = frames /\
    write_lock_free (located p st') /\
    emits_nothing p st st'.
Proof.
  intros Hcap Hinit Hfree.
  destruct (registered_find p st) as (i & Hget & Hfind & Hat).
  rewrite (registered_known p st Hinit) in Hget, Hfind, Hat.
  pose proof (located_pcm p st) as Hpcm.
  apply Z.eqb_neq in Hinit.
  unfold audio_hook_alsa_mmap_begin, bind at 1, state_get at 1. cbn.
  rewrite Hcap. cbn. unfold bind at 1. rewrite Hget.
  unfold on_stream. rewrite Hat.
  set (s := located p st) in *.
  unfold bind, stream_get, stream_set, ret.
  cbn. rewrite Hinit.
  rewrite lock_write_free_eq by exact Hfree.
  cbn. rewrite unlock_write_eq. cbn.
  eexists. split; [reflexivity |].
  unfold emits_nothing.
  rewrite located_put
    by (cbn; first [exact Hfind
                   | rewrite (proj1 (lock_released_fields _)); cbn;
                     rewrite lock_taken_pcm; exact Hpcm]).
  unfold lock_released, lock_taken, recorded_offset, recorded_frames.
  unfold write_lock_free in *.
  destruct (async s) eqn:Hmode; cbn; unfold async in *; cbn; rewrite Hmode; cbn;
    repeat split; rewrite Hmode; reflexivity.
Qed.

(** X20: mmap_commit on a stream without channels, initialized or not: with
    the write lock free the call returns success with the lock released and
    hands nothing over, whatever was recorded by mmap_begin. *)
Theorem mmap_commit_no_channels (st : state) (p offset frames : Z) :
  capturing st = true ->
  channels (located p st) = 0 ->
  write_lock_free (located p st) ->
  exists st',
    audio_hook_alsa_mmap_commit p offset frames st = Ret 0 st' /\
    write_lock_free (located p st') /\
    emits_nothing p st st'.
Proof.
  intros Hcap Hch Hfree.
  destruct (registered_find p st) as (i & Hget & Hfind & Hat).
  destruct (registered_rest p st) as (_ & _ & _ & Hmem & _ & _ & Htrace).
  pose proof (located_pcm p st) as Hpcm.
  apply Z.eqb_eq in Hch.
  unfold audio_hook_alsa_mmap_commit, bind at 1, state_get at 1. cbn.
  rewrite Hcap. cbn. unfold bind at 1. rewrite Hget.
  unfold on_stream. rewrite Hat.
  set (s := located p st) in *.
  unfold bind at 1. rewrite lock_write_free_eq by exact Hfree.
  cbn. unfold bind, stream_get, ret. cbn.
  assert (Hch' : (channels (lock_taken s) =? 0) = true)
    by (unfold lock_taken; destruct (async s); exact Hch).
  rewrite Hch'. rewrite unlock_write_eq. cbn.
  eexists. split; [reflexivity |].
  unfold emits_nothing.
  rewrite located_put
    by (cbn; first [exact Hfind
                   | rewrite (proj1 (lock_released_fields _)); cbn;
                     rewrite lock_taken_pcm; exact Hpcm]).
  split; [apply lock_released_free |].
  cbn. rewrite Htrace, Hmem.
  unfold lock_released, lock_taken. destruct (async s); cbn; unfold async; cbn;
    destruct (negb _); repeat split.
Qed.

(** X21: mmap_commit on the interleaved path.  For an initialized blocking
    stream with channels, recorded areas, the INTERLEAVED flag, the mutex
    free, the slot empty and an allocated scratch buffer with room for the
    payload, the call returns
    success, posts [capture_full] once and leaves in the scratch buffer the
    bytes found at the position of the first area for the offset passed to
    mmap_commit (the recorded offset is only compared for a warning). *)
Theorem mmap_commit_interleaved (st : state) (p offset frames : Z)
    (areas : list snd_pcm_channel_area_t) :
  capturing st = true ->
  async (located p st) = false ->
  write_mutex (located p st) = 0 ->
  channels (located p st) <> 0 ->
  mmap_areas (located p st) = Some areas ->
  Z.land (flags (located p st)) GLC_AUDIO_INTERLEAVED <> 0 ->
  0 < capture_empty (located p st) ->
  wrap64 (snd_pcm_frames_to_bytes p frames) <= capture_data_size (located p st) ->
  capture_data (located p st) <> NULL ->
  exists st',
    audio_hook_alsa_mmap_commit p offset frames st = Ret 0 st' /\
    capture_full (located p st') = capture_full (located p st) + 1 /\
    capture_size (located p st') = wrap64 (snd_pcm_frames_to_bytes p frames) /\
    write_mutex (located p st') = 0 /\
    load (mem st') (capture_data (located p st')) (capture_size (located p st')) =
      load (mem st) (audio_hook_alsa_mmap_pos (area_at areas 0) offset)
        (wrap64 (snd_pcm_frames_to_bytes p frames)) /\
    packets (trace st') = packets (trace st).
Proof.
  intros Hcap Hmode Hfree Hch Hareas Hinter Hslot Hfit Hdata.
  destruct (registered_find p st) as (i & Hget & Hfind & Hat).
  assert (Hreg : registered p st = st).
  { unfold registered. unfold located in Hareas.
    destruct (stream_find p (h_stream (hook st))); [reflexivity | discriminate Hareas]. }
  rewrite Hreg in Hget, Hfind, Hat.
  pose proof (located_pcm p st) as Hpcm.
  apply Z.eqb_neq in Hch, Hinter.
  unfold audio_hook_alsa_mmap_commit, bind at 1, state_get at 1. cbn.
  rewrite Hcap. cbn. unfold bind at 1. rewrite Hget.
  unfold on_stream. rewrite Hat.
  set (s := located p st) in *.
  set (n := wrap64 (snd_pcm_frames_to_bytes p frames)) in *.
  unfold bind at 1.
  rewrite lock_write_free_eq by (unfold write_lock_free; rewrite Hmode; exact Hfree).
  cbn. unfold lock_taken. rewrite Hmode.
  unfold bind, stream_get, stream_set, glc_state_time, do_memcpy, sem_post, glc_log,
    emit, state_get, state_set, ret.
  cbn. rewrite Hch, Hareas.
  match goal with
  | |- context [if negb (offset =? ?x) then _ else _] => destruct (negb (offset =? x))
  end; cbn;
    rewrite wait_for_thread_blocking by (cbn; assumption);
    cbn; rewrite set_data_size_fits by (cbn; assumption);
    cbn; rewrite Hinter; cbn; rewrite unlock_write_eq; cbn;
    unfold lock_released, async; cbn; fold (async s); rewrite Hmode;
    (eexists; split; [reflexivity |]);
    rewrite located_put by (cbn; assumption);
    cbn; repeat split; apply load_memcpy.
Qed.

(** ** start and the pending streams *)

Lemma length_list_put (i : nat) (s : audio_hook_stream_s) (l : list audio_hook_stream_s) :
  List.length (list_put i s l) = List.length l.
Proof.
  revert i. induction l as [| s0 l IH]; intros i; [destruct i; reflexivity |].
  destruct i as [| i]; simpl; [reflexivity | rewrite IH; reflexivity].
Qed.

Lemma nth_list_put_other (i j : nat) (s : audio_hook_stream_s)
    (l : list audio_hook_stream_s) :
  j <> i -> nth j (list_put i s l) stream_zero = nth j l stream_zero.
Proof.
  revert i j. induction l as [| s0 l IH]; intros i j Hne; [destruct i; reflexivity |].
  destruct i as [| i]; destruct j as [| j]; simpl; try reflexivity.
  - contradiction Hne. reflexivity.
  - apply IH. intros ->. apply Hne. reflexivity.
Qed.

Lemma stream_init_marks (s s' : audio_hook_stream_s) (st st' : state) (r : Z) :
  audio_hook_stream_init (s, st) = Ret r (s', st') ->
  fmt s <> 0 ->
  initialized s' = 1 /\ fmt s' = fmt s.
Proof.
  intros H Hfmt. revert H. apply Z.eqb_neq in Hfmt.
  unfold audio_hook_stream_init, glc_state_audio_new, ps_packet_init, ps_packet_destroy,
    ps_packet_message, sem_post, sem_wait, glc_log, emit, block, bind, stream_get,
    stream_set, state_get, state_set, ret.
  cbn. rewrite Hfmt. cbn.
  repeat (break_if; cbn); intros H; try discriminate H;
    injection H as _ <- _; cbn; split; reflexivity.
Qed.

Lemma init_pending_at (i : nat) (st st' : state) :
  init_pending i st = Ret tt st' ->
  (i < List.length (h_stream (hook st)))%nat ->
  List.length (h_stream (hook st')) = List.length (h_stream (hook st)) /\
  (forall j, j <> i -> stream_at j (hook st') = stream_at j (hook st)) /\
  (fmt (stream_at i (hook st')) <> 0 -> initialized (stream_at i (hook st')) <> 0).
Proof.
  unfold init_pending, on_stream, bind, stream_get. cbn.
  set (s := stream_at i (hook st)).
  destruct (fmt s =? 0) eqn:Hfmt; cbn.
  - intros H Hlt. injection H as <-. subst s. rewrite put_stream_same.
    repeat split. intros Hne. apply Z.eqb_eq in Hfmt. contradiction.
  - destruct (initialized s =? 0) eqn:Hinit; cbn.
    + destruct (audio_hook_stream_init (s, st)) as [r [s1 st1] | [s1 st1]] eqn:Hrun;
        [| discriminate].
      cbn. intros H Hlt. injection H as <-.
      assert (Hhook : hook st1 = hook st)
        by (apply (stream_init_hook s s1 st st1); rewrite Hrun; reflexivity).
      apply Z.eqb_neq in Hfmt.
      destruct (stream_init_marks _ _ _ _ _ Hrun Hfmt) as [Hmark _].
      unfold stream_at, put_stream. cbn. rewrite Hhook.
      rewrite length_list_put. split; [reflexivity |]. split.
      * intros j Hj. apply nth_list_put_other. exact Hj.
      * rewrite nth_list_put by exact Hlt. rewrite Hmark. discriminate.
    + intros H Hlt. injection H as <-. subst s. rewrite put_stream_same.
      repeat split. intros _. apply Z.eqb_neq. exact Hinit.
Qed.

Lemma for_each_init_all (m k : nat) (st st' : state) :
  for_each (seq k m) init_pending st = Ret tt st' ->
  (k + m <= List.length (h_stream (hook st)))%nat ->
  List.length (h_stream (hook st')) = List.length (h_stream (hook st)) /\
  (forall j, (j < k)%nat -> stream_at j (hook st') = stream_at j (hook st)) /\
  (forall j, (k <= j < k + m)%nat ->
     fmt (stream_at j (hook st')) <> 0 -> initialized (stream_at j (hook st')) <> 0).
Proof.
  revert k st. induction m as [| m IH]; intros k st; simpl.
  - cbn. intros H _. injection H as <-. repeat split. intros j Hj. lia.
  - unfold bind. destruct (init_pending k st) as [[] st1 | st1] eqn:Hk; [| discriminate].
    intros Hrest Hlen.
    destruct (init_pending_at k st st1 Hk) as (L1 & O1 & P1); [lia |].
    destruct (IH (S k) st1 Hrest) as (L2 & O2 & P2); [lia |].
    split; [congruence |]. split.
    + intros j Hj. rewrite O2 by lia. apply O1. lia.
    + intros j Hj. destruct (Nat.eq_dec j k) as [-> | Hne].
      * rewrite O2 by lia. exact P1.
      * apply P2. lia.
Qed.

(** X22: the first start initializes what is pending.  When start returns
    success on a hook that was not started, every stream of the hook that has
    a format is initialized afterwards. *)
Theorem start_initializes_pending (st st' : state) (j : nat) :
  h_started (hook st) = 0 ->
  audio_hook_start st = Ret 0 st' ->
  (j < List.length (h_stream (hook st')))%nat ->
  fmt (stream_at j (hook st')) <> 0 ->
  initialized (stream_at j (hook st')) <> 0.
Proof.
  intros Hfirst. apply Z.eqb_eq in Hfirst.
  unfold audio_hook_start, bind at 1, state_get at 1. cbn.
  destruct (h_to (hook st) =? NULL) eqn:Hto; [cbn; discriminate |].
  rewrite Hfirst.
  unfold audio_hook_init_streams, bind at 1 2, state_get at 1. cbn.
  rewrite Hto, Hfirst. cbn. unfold bind at 1.
  destruct (for_each (seq 0 (List.length (h_stream (hook st)))) init_pending st)
    as [[] st1 | st1] eqn:Hloop; [| discriminate].
  destruct (for_each_init_all _ 0 st st1 Hloop) as (L & _ & P); [lia |].
  unfold glc_log, emit, bind, state_get, state_set, ret. cbn.
  destruct (capturing _); cbn; intros H; injection H as <-;
    unfold stream_at in *; cbn; intros Hj; apply P; lia.
Qed.

(** ** The converter on one channel *)

Lemma load_pointwise (m m' : memory) (a b n : Z) :
  (forall k, 0 <= k < n -> m' (a + k) = m (b + k)) -> load m' a n = load m b n.
Proof.
  intros H. unfold load. apply map_ext_in. intros k Hk. apply in_seq in Hk.
  apply H. lia.
Qed.

Lemma complex_frames_writes (area : snd_pcm_channel_area_t) (offset add ssize to : Z)
    (n : nat) :
  forall (s off : Z) (m : memory),
    0 <= ssize <= add -> 0 <= to -> 0 <= off ->
    to + off + Z.of_nat n * add < 2 ^ 64 ->
    (forall j b, (j < n)%nat -> 0 <= b < ssize ->
       ~ (to + off <=
          audio_hook_alsa_mmap_pos area (wrap64 (offset + (s + Z.of_nat j))) + b <
          to + off + Z.of_nat n * add)) ->
    (forall a, ~ (to + off <= a < to + off + Z.of_nat n * add) ->
       complex_frames n area offset s off add ssize to m a = m a) /\
    (forall j b, (j < n)%nat -> 0 <= b < ssize ->
       complex_frames n area offset s off add ssize to m (to + off + Z.of_nat j * add + b) =
       m (audio_hook_alsa_mmap_pos area (wrap64 (offset + (s + Z.of_nat j))) + b)).
Proof.
  induction n as [| n IH]; intros s off m Hsize Hto Hoff Hend Hsrc.
  - split; [reflexivity | intros j b Hj; lia].
  - rewrite Nat2Z.inj_succ, Z.mul_succ_l in Hend.
    assert (Hprod : 0 <= Z.of_nat n * add) by (apply Z.mul_nonneg_nonneg; lia).
    assert (Hw1 : wrap64 (to + off) = to + off)
      by (unfold wrap64; apply Z.mod_small; lia).
    assert (Hw2 : wrap64 (off + add) = off + add)
      by (unfold wrap64; apply Z.mod_small; lia).
    simpl complex_frames. rewrite Hw1, Hw2.
    set (m1 := memcpy (to + off) (audio_hook_alsa_mmap_pos area (wrap64 (offset + s)))
                 ssize m).
    destruct (IH (s + 1) (off + add) m1) as [Hframe Hval]; try lia.
    { intros j b Hj Hb Hin.
      apply (Hsrc (S j) b); [lia | exact Hb |].
      rewrite !Nat2Z.inj_succ, Z.mul_succ_l.
      replace (s + Z.succ (Z.of_nat j)) with (s + 1 + Z.of_nat j) by lia. lia. }
    assert (Hmiss : forall a, ~ (to + off <= a < to + off + ssize) -> m1 a = m a).
    { intros a Ha. unfold m1, memcpy.
      destruct ((to + off <=? a) && (a <? to + off + ssize)) eqn:E; [| reflexivity].
      apply andb_prop in E. destruct E as [E1 E2].
      apply Z.leb_le in E1. apply Z.ltb_lt in E2. lia. }
    split.
    + intros a Ha. rewrite Nat2Z.inj_succ, Z.mul_succ_l in Ha.
      rewrite Hframe by lia. apply Hmiss. lia.
    + intros j b Hj Hb. destruct j as [| j].
      * replace (to + off + Z.of_nat 0 * add + b) with (to + off + b) by (simpl; lia).
        rewrite Hframe by lia.
        replace (s + Z.of_nat 0) with s by (simpl; lia).
        unfold m1, memcpy.
        assert (E : (to + off <=? to + off + b) && (to + off + b <? to + off + ssize) = true).
        { apply andb_true_intro. split; [apply Z.leb_le | apply Z.ltb_lt]; lia. }
        rewrite E. f_equal. lia.
      * rewrite Nat2Z.inj_succ, Z.mul_succ_l.
        replace (to + off + (Z.of_nat j * add + add) + b)
          with (to + (off + add) + Z.of_nat j * add + b) by lia.
        rewrite Hval by (lia || exact Hb).
        replace (s + 1 + Z.of_nat j) with (s + Z.succ (Z.of_nat j)) by lia.
        apply Hmiss.
        specialize (Hsrc (S j) b Hj Hb).
        rewrite !Nat2Z.inj_succ, Z.mul_succ_l in Hsrc. lia.
Qed.

(** X23: with one channel the converter does what its name says.  For a
    stream of one channel, sizes and addresses that do not wrap, and sample
    sources outside the output, the frame [s] of the area ends up at
    [s * frame_bytes] of the output, every frame of the payload is written,
    and no byte outside the [frames * frame_bytes] bytes of the output is
    touched. *)
Theorem complex_to_interleaved_mono (stream : audio_hook_stream_s) (st : state)
    (areas : list snd_pcm_channel_area_t) (offset frames to : Z) :
  channels stream = 1 ->
  0 <= snd_pcm_samples_to_bytes (pcm stream) 1 <= snd_pcm_frames_to_bytes (pcm stream) 1 ->
  snd_pcm_frames_to_bytes (pcm stream) 1 < 2 ^ 64 ->
  0 <= frames -> 0 <= offset -> offset + frames < 2 ^ 64 ->
  0 <= to -> to + frames * snd_pcm_frames_to_bytes (pcm stream) 1 < 2 ^ 64 ->
  (forall s b, 0 <= s < frames -> 0 <= b < snd_pcm_samples_to_bytes (pcm stream) 1 ->
     ~ (to <= audio_hook_alsa_mmap_pos (area_at areas 0) (offset + s) + b <
        to + frames * snd_pcm_frames_to_bytes (pcm stream) 1)) ->
  exists st',
    audio_hook_complex_to_interleaved areas offset frames to (stream, st) =
      Ret 0 (stream, st') /\
    interleaved (pcm stream) areas 1 offset frames to (mem st) (mem st') /\
    forall a, ~ (to <= a < to + frames * snd_pcm_frames_to_bytes (pcm stream) 1) ->
              mem st' a = mem st a.
Proof.
  intros Hch Hsize Hadd Hframes Hoffset Hoffend Hto Hend Hsrc.
  set (add := snd_pcm_frames_to_bytes (pcm stream) 1) in *.
  set (ssize := snd_pcm_samples_to_bytes (pcm stream) 1) in *.
  assert (Hwa : wrap64 add = add) by (unfold wrap64; apply Z.mod_small; lia).
  assert (Hws : wrap64 ssize = ssize) by (unfold wrap64; apply Z.mod_small; lia).
  assert (Hw0 : wrap64 (add * 0) = 0) by (rewrite Z.mul_0_r; reflexivity).
  destruct (complex_frames_writes (area_at areas 0) offset add ssize to
              (Z.to_nat frames) 0 0 (mem st)) as [Hframe Hval].
  { exact Hsize. }
  { exact Hto. }
  { lia. }
  { rewrite Z2Nat.id by exact Hframes. lia. }
  { intros j b Hj Hb. rewrite Z2Nat.id by exact Hframes.
    assert (Hw : wrap64 (offset + (0 + Z.of_nat j)) = offset + Z.of_nat j)
      by (unfold wrap64; apply Z.mod_small; lia).
    rewrite Hw. specialize (Hsrc (Z.of_nat j) b). lia. }
  rewrite Z2Nat.id in Hframe by exact Hframes.
  unfold audio_hook_complex_to_interleaved, bind, stream_get, state_set, ret.
  cbn. fold add. fold ssize. rewrite Hch, Hwa, Hws.
  change (Z.to_nat 1) with 1%nat. cbn [complex_channels]. rewrite Hw0.
  eexists. split; [reflexivity |]. cbn [mem set_mem]. split.
  - unfold interleaved. fold add. fold ssize. intros c s Hc Hs.
    assert (c = 0) by lia. subst c.
    apply load_pointwise. intros k Hk.
    replace (to + s * add + 0 * ssize + k) with (to + 0 + Z.of_nat (Z.to_nat s) * add + k)
      by (rewrite Z2Nat.id; lia).
    rewrite Hval by lia.
    assert (Hw : wrap64 (offset + (0 + Z.of_nat (Z.to_nat s))) = offset + s)
      by (rewrite Z2Nat.id by lia; unfold wrap64; apply Z.mod_small; lia).
    rewrite Hw. reflexivity.
  - intros a Ha. apply Hframe. lia.
Qed.

End Properties.

(** * The properties on the concrete process *)

#[local] Existing Instance Scenario.glc_flags.
#[local] Existing Instance Scenario.stereo_s16.

(** ** C1: the converter *)

(** C1 on the code: two frames of the stereo process.  The converter starts
    channel [c] at [c * frame_bytes], not at [c * sample_bytes]: the first
    right sample lands on the second left one at offset 4, the bytes at 2
    and at 6 are never written, and the second right sample is written at
    offset 8, past the 8 bytes of the payload.  The layout asked for,
    11 12 21 22 13 14 23 24, is not produced. *)
Theorem complex_to_interleaved_stereo :
  exists s' st',
    Scenario.convert_2_frames = Ret 0 (s', st') /\
    load (mem st') 3000 10 = [11; 12; 0; 0; 21; 22; 0; 0; 23; 24] /\
    ~ interleaved 1 Scenario.areas 2 0 2 3000 Scenario.samples (mem st').
Proof.
  exists Scenario.stereo,
    (set_mem (complex_channels 2 Scenario.areas 0 0 2 4 2 3000 Scenario.samples)
       Scenario.boot).
  split; [reflexivity |]. split; [vm_compute; reflexivity |].
  intros Hlayout. specialize (Hlayout 1 0).
  assert (Hc : 0 <= 1 < 2) by lia. assert (Hs : 0 <= 0 < 2) by lia.
  specialize (Hlayout Hc Hs). vm_compute in Hlayout. discriminate Hlayout.
Qed.

(** ** C2 *)

Lemma uninitialized_stream_witness :
  capturing Scenario.capturing_hook = true /\
  initialized (located 1 Scenario.capturing_hook) = 0 /\
  exists st',
    audio_hook_alsa_i 1 100 4 Scenario.capturing_hook = Ret EINVAL st' /\
    emits_nothing 1 Scenario.capturing_hook st'.
Proof.
  split; [vm_compute; reflexivity |]. split; [vm_compute; reflexivity |].
  apply (uninitialized_stream Scenario.capturing_hook 1); vm_compute; reflexivity.
Defined.

(** C2 as stated fails: on the capturing hook, mmap_commit for a handle
    whose stream is not initialized returns success, not EINVAL. *)
Lemma mmap_commit_uninitialized_succeeds :
  capturing Scenario.capturing_hook = true /\
  initialized (located 1 Scenario.capturing_hook) = 0 /\
  (exists st', audio_hook_alsa_mmap_commit 1 0 4 Scenario.capturing_hook = Ret 0 st') /\
  ~ (exists st', audio_hook_alsa_mmap_commit 1 0 4 Scenario.capturing_hook = Ret EINVAL st').
Proof.
  split; [vm_compute; reflexivity |]. split; [vm_compute; reflexivity |]. split.
  - exists (Scenario.after (audio_hook_alsa_mmap_commit 1 0 4) Scenario.capturing_hook).
    vm_compute. reflexivity.
  - intros [st' H]. vm_compute in H. discriminate H.
Qed.

(** ** C3 *)

(** C3 on the code.  mmap_commit on the configured stream, before any
    mmap_begin: the mutex, free at the call, is taken and the call returns
    EINVAL with the mutex held.  writei on a stream that is not initialized:
    the mutex is released though the call never took it. *)
Theorem write_lock_not_balanced :
  (write_mutex (located 1 Scenario.configured) = 0 /\
   exists st',
     audio_hook_alsa_mmap_commit 1 0 4 Scenario.configured = Ret EINVAL st' /\
     write_mutex (located 1 st') = 1 /\
     lock_events (new_events Scenario.configured st') = [ev_lock 1 mutex] /\
     ~ lock_discipline (lock_events (new_events Scenario.configured st'))) /\
  (exists st',
     audio_hook_alsa_i 1 100 4 Scenario.capturing_hook = Ret EINVAL st' /\
     lock_events (new_events Scenario.capturing_hook st') = [ev_unlock 1 mutex] /\
     ~ lock_discipline (lock_events (new_events Scenario.capturing_hook st'))).
Proof.
  split; [split; [vm_compute; reflexivity |] |].
  - exists (Scenario.after (audio_hook_alsa_mmap_commit 1 0 4) Scenario.configured).
    split; [vm_compute; reflexivity |]. split; [vm_compute; reflexivity |].
    split; [vm_compute; reflexivity |].
    intros [H | (p & k & H)]; vm_compute in H; discriminate H.
  - exists (Scenario.after (audio_hook_alsa_i 1 100 4) Scenario.capturing_hook).
    split; [vm_compute; reflexivity |]. split; [vm_compute; reflexivity |].
    intros [H | (p & k & H)]; vm_compute in H; discriminate H.
Qed.

(** ** C4 *)

Lemma not_capturing_noop_witness :
  capturing Scenario.pending = false /\
  audio_hook_alsa_i 1 100 4 Scenario.pending = Ret 0 Scenario.pending.
Proof.
  split; [vm_compute; reflexivity |].
  apply (not_capturing_noop Scenario.pending); vm_compute; reflexivity.
Defined.

(** C4 as stated fails: with the capturing flag clear, open links a new
    stream into the hook, hw_params configures it, close withdraws its
    format. *)
Lemma control_calls_act_when_not_capturing :
  capturing Scenario.bound = false /\
  capturing Scenario.pending = false /\
  (exists st',
     audio_hook_alsa_open 1 "default" 0 0 Scenario.bound = Ret 0 st' /\
     h_stream (hook st') <> h_stream (hook Scenario.bound)) /\
  (exists st',
     audio_hook_alsa_hw_params 1 Scenario.s16_stereo_rw Scenario.bound = Ret 0 st' /\
     h_stream (hook st') <> h_stream (hook Scenario.bound)) /\
  (exists st',
     audio_hook_alsa_close 1 Scenario.pending = Ret 0 st' /\
     fmt (located 1 Scenario.pending) = 1 /\ fmt (located 1 st') = 0).
Proof.
  split; [vm_compute; reflexivity |]. split; [vm_compute; reflexivity |].
  split; [| split].
  - exists (Scenario.after (audio_hook_alsa_open 1 "default" 0 0) Scenario.bound).
    split; [vm_compute; reflexivity |]. vm_compute. discriminate.
  - exists Scenario.pending.
    split; [vm_compute; reflexivity |]. vm_compute. discriminate.
  - exists (Scenario.after (audio_hook_alsa_close 1) Scenario.pending).
    split; [vm_compute; reflexivity |]. split; vm_compute; reflexivity.
Qed.

(** ** C5 *)

Lemma hw_params_audio_id_witness :
  h_started (hook Scenario.capturing_hook) <> 0 /\
  0 <= audio_count Scenario.capturing_hook /\
  audio_hook_alsa_hw_params 1 Scenario.s16_stereo_rw Scenario.capturing_hook =
    Ret 0 Scenario.configured /\
  0 < audio_i (located 1 Scenario.configured).
Proof.
  assert (E1 : h_started (hook Scenario.capturing_hook) = 1) by (vm_compute; reflexivity).
  assert (E2 : audio_count Scenario.capturing_hook = 0) by (vm_compute; reflexivity).
  assert (H1 : h_started (hook Scenario.capturing_hook) <> 0) by (rewrite E1; lia).
  assert (H2 : 0 <= audio_count Scenario.capturing_hook) by (rewrite E2; lia).
  assert (H3 : audio_hook_alsa_hw_params 1 Scenario.s16_stereo_rw Scenario.capturing_hook =
               Ret 0 Scenario.configured) by (vm_compute; reflexivity).
  split; [exact H1 |]. split; [exact H2 |]. split; [exact H3 |].
  exact (hw_params_audio_id Scenario.capturing_hook Scenario.configured 1
           Scenario.s16_stereo_rw H1 H2 H3).
Defined.

(** C5 as stated fails: hw_params on a hook that is not started returns
    success and the stream keeps the identifier 0. *)
Lemma hw_params_before_start_keeps_zero :
  exists st',
    audio_hook_alsa_hw_params 1 Scenario.s16_stereo_rw Scenario.bound = Ret 0 st' /\
    ~ 0 < audio_i (located 1 st').
Proof.
  exists Scenario.pending. split; [vm_compute; reflexivity |]. vm_compute. discriminate.
Qed.

(** ** C6, C7, C8, C10 *)

Lemma writen_on_interleaved_stream_witness :
  capturing Scenario.configured = true /\
  initialized (located 1 Scenario.configured) <> 0 /\
  Z.land (flags (located 1 Scenario.configured)) GLC_AUDIO_INTERLEAVED <> 0 /\
  write_lock_free (located 1 Scenario.configured) /\
  exists st',
    audio_hook_alsa_n 1 [100; 200] 4 Scenario.configured = Ret EINVAL st' /\
    emits_nothing 1 Scenario.configured st'.
Proof.
  assert (H1 : initialized (located 1 Scenario.configured) <> 0) by (vm_compute; lia).
  assert (H2 : Z.land (flags (located 1 Scenario.configured)) GLC_AUDIO_INTERLEAVED <> 0)
    by (vm_compute; lia).
  assert (H0 : capturing Scenario.configured = true) by (vm_compute; reflexivity).
  assert (H3 : write_lock_free (located 1 Scenario.configured)) by (vm_compute; reflexivity).
  split; [exact H0 |]. split; [exact H1 |]. split; [exact H2 |]. split; [exact H3 |].
  exact (proj1 (writen_on_interleaved_stream Scenario.configured 1 [100; 200] 4 H0 H1 H2) H3).
Defined.

(** C6 as stated fails: after hw_params and an mmap_commit without
    mmap_begin the stream of the handle 1 is initialized and INTERLEAVED on
    a capturing hook, its mutex is held, and writen waits at the lock: it
    does not return EINVAL. *)
Lemma writen_waits_at_held_lock :
  capturing Scenario.locked = true /\
  initialized (located 1 Scenario.locked) <> 0 /\
  Z.land (flags (located 1 Scenario.locked)) GLC_AUDIO_INTERLEAVED <> 0 /\
  audio_hook_alsa_n 1 [100; 200] 4 Scenario.locked = Blocked Scenario.locked /\
  ~ (exists st', audio_hook_alsa_n 1 [100; 200] 4 Scenario.locked = Ret EINVAL st').
Proof.
  split; [vm_compute; reflexivity |].
  split; [vm_compute; lia |].
  split; [vm_compute; lia |].
  split; [vm_compute; reflexivity |].
  intros [st' H]. vm_compute in H. discriminate H.
Qed.

Lemma set_buffer_once_witness :
  h_to (hook Scenario.boot) = NULL /\ 500 <> NULL /\
  exists st1,
    audio_hook_set_buffer 500 Scenario.boot = Ret 0 st1 /\
    h_to (hook st1) = 500 /\
    forall st2 other,
      h_to (hook st2) = 500 -> audio_hook_set_buffer other st2 = Ret EALREADY st2.
Proof.
  assert (H : 500 <> NULL) by (unfold NULL; lia).
  split; [vm_compute; reflexivity |]. split; [exact H |].
  apply (set_buffer_once Scenario.boot 500); [vm_compute; reflexivity | exact H].
Defined.

Lemma start_twice_witness :
  audio_hook_start Scenario.bound = Ret 0 Scenario.capturing_hook /\
  h_started (hook Scenario.capturing_hook) <> 0 /\
  capturing Scenario.capturing_hook = true /\
  audio_hook_start Scenario.capturing_hook =
    Ret 0 (set_trace (ev_log GLC_WARNING "capturing is already active"
                        :: trace Scenario.capturing_hook) Scenario.capturing_hook).
Proof.
  split; [vm_compute; reflexivity |].
  apply (start_twice Scenario.bound Scenario.capturing_hook); vm_compute; reflexivity.
Defined.

Lemma set_data_size_enomem_witness :
  capture_data_size (stream_new 1) < 16 /\
  allocation_fails Scenario.exhausted /\
  exists stream' st',
    audio_hook_set_data_size 16 (stream_new 1, Scenario.exhausted) =
      Ret ENOMEM (stream', st') /\
    capture_size stream' = 16 /\
    capture_data_size stream' = 16 /\
    capture_data stream' = NULL.
Proof.
  assert (H : capture_data_size (stream_new 1) < 16) by (simpl; lia).
  split; [exact H |]. split; [vm_compute; reflexivity |].
  apply (set_data_size_enomem (stream_new 1) Scenario.exhausted 16);
    [exact H | vm_compute; reflexivity].
Defined.

(** * The further properties on the concrete process *)

Ltac computed :=
  first [ vm_compute; reflexivity
        | vm_compute; intros Hc; discriminate Hc
        | vm_compute; lia
        | vm_compute; split; intros Hc; discriminate Hc ].

Lemma set_data_size_after_enomem_witness :
  audio_hook_set_data_size 8
    (set_capture_data NULL (set_capture_data_size 16 (set_capture_size 16 (stream_new 1))),
     Scenario.boot) =
  Ret 0 (set_capture_size 8
           (set_capture_data NULL
              (set_capture_data_size 16 (set_capture_size 16 (stream_new 1)))),
         Scenario.boot).
Proof.
  apply (set_data_size_after_enomem 16 8 (stream_new 1) _ Scenario.exhausted
           Scenario.exhausted Scenario.boot); computed.
Defined.

Lemma thread_turn_shutdown_witness :
  audio_hook_thread_turn (stream_new 1, Scenario.boot) = Blocked (stream_new 1, Scenario.boot).
Proof.
  apply (thread_turn_shutdown (stream_new 1) Scenario.boot); computed.
Defined.

Lemma writei_hands_over_witness :
  exists st', audio_hook_alsa_i 1 2000 4 Scenario.primed = Ret 0 st' /\
              capture_full (located 1 st') = capture_full (located 1 Scenario.primed) + 1.
Proof.
  destruct (writei_hands_over Scenario.primed 1 2000 4) as (st' & H1 & H2 & _);
    [computed | computed | computed | computed | computed | computed | computed |].
  exists st'. split; assumption.
Defined.

Lemma writei_packet_witness :
  exists st' st'',
    audio_hook_alsa_i 1 2000 4 Scenario.primed = Ret 0 st' /\
    on_stream 0 audio_hook_thread_turn st' = Ret true st''.
Proof.
  destruct (writei_packet Scenario.primed 1 2000 4 0) as (st' & st'' & H1 & H2 & _);
    [computed | computed | computed | computed | computed | computed | computed
     | computed | computed | computed |].
  exists st', st''. split; assumption.
Defined.

Lemma writei_async_drop_witness :
  exists st', audio_hook_alsa_i 2 1000 4 Scenario.async_busy = Ret EBUSY st'.
Proof.
  destruct (writei_async_drop Scenario.async_busy 2 1000 4) as (st' & H & _);
    [computed | computed | computed | computed | computed | computed |].
  exists st'. exact H.
Defined.

Lemma writei_async_waits_witness :
  exists st', audio_hook_alsa_i 2 1000 4 Scenario.async_strict = Blocked st'.
Proof.
  destruct (writei_async_waits Scenario.async_strict 2 1000 4) as (st' & H & _);
    [computed | computed | computed | computed | computed | computed |].
  exists st'. exact H.
Defined.

Lemma get_stream_alsa_again_witness :
  audio_hook_get_stream_alsa 1 (Scenario.after (audio_hook_get_stream_alsa 1) Scenario.bound) =
  Ret 0%nat (Scenario.after (audio_hook_get_stream_alsa 1) Scenario.bound).
Proof.
  apply (get_stream_alsa_again 1 Scenario.bound
           (Scenario.after (audio_hook_get_stream_alsa 1) Scenario.bound) 0).
  computed.
Defined.

Lemma get_stream_alsa_unique_witness :
  unique_handles (Scenario.after (audio_hook_get_stream_alsa 1) Scenario.bound).
Proof.
  apply (get_stream_alsa_unique 1 Scenario.bound
           (Scenario.after (audio_hook_get_stream_alsa 1) Scenario.bound) 0);
    [vm_compute; constructor | computed].
Defined.

Lemma hw_params_returns_witness : write_lock_free (located 1 Scenario.configured).
Proof.
  apply (hw_params_returns Scenario.capturing_hook Scenario.configured 1 0
           Scenario.s16_stereo_rw).
  computed.
Defined.


Lemma stream_init_announces_witness :
  exists s' st',
    audio_hook_stream_init (located 1 Scenario.pending, Scenario.pending) = Ret 0 (s', st').
Proof.
  destruct (stream_init_announces (located 1 Scenario.pending) Scenario.pending)
    as (s' & st' & H & _); [computed | computed |].
  exists s', st'. exact H.
Defined.

Lemma start_skips_unconfigured_witness :
  exists st', audio_hook_start Scenario.opened = Ret 0 st' /\
              h_stream (hook st') = h_stream (hook Scenario.opened).
Proof.
  destruct (start_skips_unconfigured Scenario.opened) as (st' & H1 & H2 & _);
    [computed | computed | vm_compute; repeat constructor |].
  exists st'. split; assumption.
Defined.

Lemma destroy_frees_all_witness :
  exists st', audio_hook_destroy 1 Scenario.pending = Ret 0 st' /\ h_stream (hook st') = [].
Proof.
  destruct (destroy_frees_all Scenario.pending 1) as (st' & H1 & H2 & _);
    [computed | vm_compute; repeat constructor |].
  exists st'. split; assumption.
Defined.

Lemma destroy_waits_for_worker_witness :
  audio_hook_destroy 1 Scenario.configured =
  Blocked (set_hook (set_h_stream [] (hook Scenario.configured)) Scenario.configured).
Proof.
  apply (destroy_waits_for_worker Scenario.configured 1 (located 1 Scenario.configured) []);
    computed.
Defined.

Lemma mmap_begin_records_witness :
  exists st',
    audio_hook_alsa_mmap_begin 1 Scenario.areas 0 4 Scenario.configured = Ret 0 st' /\
    mmap_areas (located 1 st') = Some Scenario.areas.
Proof.
  destruct (mmap_begin_records Scenario.configured 1 Scenario.areas 0 4)
    as (st' & H1 & H2 & _); [computed | computed | computed |].
  exists st'. split; assumption.
Defined.

Lemma mmap_commit_no_channels_witness :
  exists st', audio_hook_alsa_mmap_commit 1 0 4 Scenario.capturing_hook = Ret 0 st'.
Proof.
  destruct (mmap_commit_no_channels Scenario.capturing_hook 1 0 4) as (st' & H & _);
    [computed | computed | computed |].
  exists st'. exact H.
Defined.

Lemma mmap_commit_interleaved_witness :
  exists st', audio_hook_alsa_mmap_commit 1 0 4 Scenario.mapped = Ret 0 st'.
Proof.
  destruct (mmap_commit_interleaved Scenario.mapped 1 0 4 Scenario.areas) as (st' & H & _);
    [computed | computed | computed | computed | computed | computed | computed
     | computed | computed |].
  exists st'. exact H.
Defined.

Lemma start_initializes_pending_witness :
  initialized (stream_at 0 (hook (Scenario.after audio_hook_start Scenario.pending))) <> 0.
Proof.
  apply (start_initializes_pending Scenario.pending
           (Scenario.after audio_hook_start Scenario.pending) 0);
    [computed | computed | vm_compute; lia | computed].
Defined.

Lemma complex_to_interleaved_mono_witness :
  exists st',
    audio_hook_complex_to_interleaved Scenario.areas 0 2 3000
      (Scenario.mono, Scenario.boot) = Ret 0 (Scenario.mono, st') /\
    interleaved 1 Scenario.areas 1 0 2 3000 (mem Scenario.boot) (mem st').
Proof.
  destruct (complex_to_interleaved_mono Scenario.mono Scenario.boot Scenario.areas 0 2 3000)
    as (st' & H1 & H2 & _);
    [computed | computed | computed | computed | computed | computed | computed
     | computed | |].
  - intros s b Hs Hb.
    change (snd_pcm_samples_to_bytes (pcm Scenario.mono) 1) with 2 in Hb.
    change (snd_pcm_frames_to_bytes (pcm Scenario.mono) 1) with 4.
    assert (Hcase : s = 0 \/ s = 1) by lia.
    destruct Hcase as [-> | ->].
    + change (audio_hook_alsa_mmap_pos (area_at Scenario.areas 0) (0 + 0)) with 1000. lia.
    + change (audio_hook_alsa_mmap_pos (area_at Scenario.areas 0) (0 + 1)) with 1002. lia.
  - exists st'. split; assumption.
Defined.
